(** * kedge: applying templated Kubernetes manifests through the dynamic client

    A shallow embedding of the two copies of the [kedge] package that the
    repository carries:

    - [src/kedge.go], embedded in [Module KedgeGo]: the reconciler logs its
      failures and returns nothing, and [render] re-renders its own output
      while it still holds the marker of a template action;
    - [src/unnamed/part_000], embedded in [Module Part000]: the reconciler
      returns its failures, prefers the namespace of the document, drops
      bare [List] documents and renders in one pass.

    The functions that are the same text in the two files ([mergeMaps],
    [combineValues], [readValues], [fileContains], [getAPIResourceForGVK],
    [getDynamicClientOnKind]) are embedded once, before the two modules.

    Go maps are [gmap string _]; decoded YAML/JSON is the type [value];
    Go [error]s are their messages; the cluster behind a [*rest.Config], the
    file system, the YAML/JSON codec and the template engine are explicit
    parameters of the functions that reach them. *)

From stdpp Require Import gmap strings list fin_maps pretty stringmap.

#[local] Set Warnings "-register-all".
#[local] Open Scope string_scope.
#[local] Open Scope list_scope.

(** ** Errors and results *)

(** A Go [error] is modelled by its message; [nil] is [None]. *)
Definition error : Type := string.

Inductive result (A : Type) : Type :=
  | Ok (a : A)
  | Err (e : error).
Arguments Ok {A} a.
Arguments Err {A} e.

Definition isOk {A} (r : result A) : bool :=
  match r with Ok _ => true | Err _ => false end.

(** ** Strings *)

(** [strings.Contains(s, substr)]. *)
Fixpoint contains (s substr : string) : bool :=
  String.prefix substr s ||
  match s with
  | EmptyString => false
  | String _ s' => contains s' substr
  end.

(** [strings.Split(s, sep)] for a one-byte separator: the fields between the
    occurrences of [sep], the empty ones included. *)
Fixpoint splitOn (sep : Ascii.ascii) (s : string) : list string :=
  match s with
  | EmptyString => [EmptyString]
  | String c s' =>
      if Ascii.eqb c sep then EmptyString :: splitOn sep s'
      else match splitOn sep s' with
           | [] => [String c EmptyString]
           | f :: fs => String c f :: fs
           end
  end.

(** The bytes ['/'], ['\n'] and ['\r']. *)
Definition slash : Ascii.ascii := Ascii.ascii_of_nat 47.
Definition newline : Ascii.ascii := Ascii.ascii_of_nat 10.
Definition carriageReturn : Ascii.ascii := Ascii.ascii_of_nat 13.

(** [strings.Join(fields, sep)]. *)
Fixpoint joinWith (sep : string) (fields : list string) : string :=
  match fields with
  | [] => ""
  | [f] => f
  | f :: fs => f +:+ sep +:+ joinWith sep fs
  end.

(** ** Decoded documents

    What [yaml.Unmarshal] stores in an [interface{}]: [nil], [bool],
    [float64], [string], [[]interface{}] and [map[string]interface{}].  The
    program never computes with a number, it only moves it around, so the
    payload of [VNumber] is an integer. *)
Inductive value : Type :=
  | VNull
  | VBool (b : bool)
  | VNumber (x : Z)
  | VString (s : string)
  | VList (l : list value)
  | VMap (m : gmap string value).

(** The dynamic type that a Go type assertion [v.(T)] inspects. *)
Inductive jtype : Type := TNull | TBool | TNumber | TString | TList | TMap.

Definition typeOf (v : value) : jtype :=
  match v with
  | VNull => TNull
  | VBool _ => TBool
  | VNumber _ => TNumber
  | VString _ => TString
  | VList _ => TList
  | VMap _ => TMap
  end.

#[global] Instance jtype_eq_dec : EqDecision jtype.
Proof. solve_decision. Defined.

(** A scalar is neither a mapping nor a sequence. *)
Definition isScalar (v : value) : bool :=
  match v with
  | VList _ | VMap _ => false
  | _ => true
  end.

(** ** [mergeMaps] (kedge.go 255-292, part_000 283-320)

    [mergeStep] is the body of [for k, v := range d2], as a function of the
    map [d1] it assigns into; [self] stands for the recursive call.  In the
    branch where both values are mappings the Go code merges into [n] in
    place and leaves [d1[k]] pointing to it: the binding of [k] afterwards is
    the merged mapping.  [d1[k] != nil] is false both for a missing key and
    for a key bound to [nil]. *)
Definition mergeStep (self : gmap string value → value → gmap string value)
    (recurseArrays : bool) (k : string) (v : value) (d1 : gmap string value)
    : gmap string value :=
  match v with
  | VMap _ =>
      match d1 !! k with
      | None | Some VNull => <[k:=v]> d1
      | Some (VMap n) => <[k:=VMap (self n v)]> d1
      | Some _ => <[k:=v]> d1
      end
  | VList m =>
      if recurseArrays then
        match d1 !! k with
        | None | Some VNull => <[k:=v]> d1
        | Some (VList n) => <[k:=VList (n ++ m)]> d1
        | Some _ => <[k:=v]> d1
        end
      else <[k:=v]> d1
  | _ => <[k:=v]> d1
  end.

(** The recursion descends into the values of [d2]; the second mapping is
    passed as a [value] so that it is structural. *)
Fixpoint mergeInto (recurseArrays : bool) (d1 : gmap string value) (v2 : value)
    {struct v2} : gmap string value :=
  match v2 with
  | VMap d2 => map_fold (mergeStep (mergeInto recurseArrays) recurseArrays) d1 d2
  | _ => d1
  end.

Definition mergeMaps (d1 d2 : gmap string value) (recurseArrays : bool)
    : gmap string value :=
  mergeInto recurseArrays d1 (VMap d2).

(** What [d1[k]] holds after the loop body has run for [(k, v)], given what
    it held before. *)
Definition mergedValue (recurseArrays : bool) (old : option value) (v : value)
    : value :=
  match v, old with
  | VMap m, Some (VMap n) => VMap (mergeMaps n m recurseArrays)
  | VList m, Some (VList n) => if recurseArrays then VList (n ++ m) else v
  | _, _ => v
  end.

(** Paths into nested mappings. *)
Fixpoint lookupPath (path : list string) (v : value) : option value :=
  match path with
  | [] => Some v
  | k :: rest =>
      match v with
      | VMap m =>
          match m !! k with
          | Some v' => lookupPath rest v'
          | None => None
          end
      | _ => None
      end
  end.

(** How deep mappings nest in a value. *)
Fixpoint depth (v : value) : nat :=
  match v with
  | VMap m => S (map_fold (λ _ x acc, Nat.max (depth x) acc) 0 m)
  | _ => 0
  end.

(** ** Group, version, kind (k8s.io/apimachinery/pkg/runtime/schema) *)

Record GroupVersion : Type := {
  gvGroup : string;
  gvVersion : string
}.

Record GroupVersionKind : Type := {
  gvkGroup : string;
  gvkVersion : string;
  gvkKind : string
}.

Record GroupVersionResource : Type := {
  gvrGroup : string;
  gvrVersion : string;
  gvrResource : string
}.

(** [schema.ParseGroupVersion]: no ["/"] is a bare version, one ["/"]
    separates group and version, more is an error. *)
Definition ParseGroupVersion (gv : string) : result GroupVersion :=
  if bool_decide (gv = "") || bool_decide (gv = "/") then
    Ok {| gvGroup := ""; gvVersion := "" |}
  else
    match splitOn slash gv with
    | [v] => Ok {| gvGroup := ""; gvVersion := v |}
    | [g; v] => Ok {| gvGroup := g; gvVersion := v |}
    | _ => Err ("unexpected GroupVersion string: " +:+ gv)
    end.

(** [schema.FromAPIVersionAndKind]. *)
Definition FromAPIVersionAndKind (apiVersion kind : string) : GroupVersionKind :=
  match ParseGroupVersion apiVersion with
  | Ok gv => {| gvkGroup := gvGroup gv; gvkVersion := gvVersion gv; gvkKind := kind |}
  | Err _ => {| gvkGroup := ""; gvkVersion := ""; gvkKind := kind |}
  end.

(** [gvk.GroupVersion().String()]. *)
Definition GroupVersionString (gvk : GroupVersionKind) : string :=
  if bool_decide (gvkGroup gvk = "") then gvkVersion gvk
  else gvkGroup gvk +:+ "/" +:+ gvkVersion gvk.

(** [gvk.String()]. *)
Definition GVKString (gvk : GroupVersionKind) : string :=
  gvkGroup gvk +:+ "/" +:+ gvkVersion gvk +:+ ", Kind=" +:+ gvkKind gvk.

(** ** Files and the codec *)

(** The files the program can read: path to content.  [os.Stat] and
    [ioutil.ReadFile] fail on a path that is not bound. *)
Abbreviation FS := (gmap string string).

(** The YAML and JSON libraries. *)
Record Codec : Type := {
  (** [yaml.Unmarshal(content, &data)] into a [map[string]interface{}] *)
  yamlUnmarshalMap : string → result (gmap string value);
  (** [yaml.Unmarshal(b, &obj)] into an [unstructured.Unstructured] *)
  yamlUnmarshalObject : string → result (gmap string value);
  (** [json.Marshal(item)] of a list item *)
  jsonMarshal : gmap string value → result string;
  (** [scheme.Scheme.ObjectKinds(obj)] *)
  objectKinds : gmap string value → result (list GroupVersionKind);
  (** the serializer of [makeNewPatchableData] *)
  encode : gmap string value → string
}.

(** ** [readValues] and [combineValues] (kedge.go 202-225, part_000 230-253) *)

Definition readValues (codec : Codec) (fs : FS) (path : string)
    : result (gmap string value) :=
  match fs !! path with
  | None => Err ("unable to  read values file: " +:+ path)
  | Some content =>
      match yamlUnmarshalMap codec content with
      | Err _ => Err "unable decode the values content"
      | Ok data => Ok data
      end
  end.

(** The loop of [combineValues], from the accumulator [data]: the pair that
    the function returns, with [None] for a [nil] error. *)
Fixpoint combineValuesFrom (codec : Codec) (fs : FS) (data : gmap string value)
    (filesToMerge : list string) (recurseArrays : bool)
    : gmap string value * option error :=
  match filesToMerge with
  | [] => (data, None)
  | file :: rest =>
      match readValues codec fs file with
      | Err err => (data, Some err)
      | Ok d => combineValuesFrom codec fs (mergeMaps data d recurseArrays) rest recurseArrays
      end
  end.

Definition combineValues (codec : Codec) (fs : FS) (filesToMerge : list string)
    (recurseArrays : bool) : gmap string value * option error :=
  combineValuesFrom codec fs ∅ filesToMerge recurseArrays.

(** ** [unstructured.Unstructured]

    The object is its [Object] field, a [map[string]interface{}]; the
    accessors below are the ones the program calls. *)

(** [NestedFieldNoCopy(obj, f1, f2)]: present only under a mapping. *)
Definition nestedField (obj : gmap string value) (f1 f2 : string) : option value :=
  match obj !! f1 with
  | Some (VMap m) => m !! f2
  | _ => None
  end.

(** The string held by a field, [""] when it is absent or not a string. *)
Definition stringOf (field : option value) : string :=
  match field with
  | Some (VString s) => s
  | _ => ""
  end.

Definition GetAPIVersion (obj : gmap string value) : string := stringOf (obj !! "apiVersion").
Definition GetKind (obj : gmap string value) : string := stringOf (obj !! "kind").
Definition GetName (obj : gmap string value) : string := stringOf (nestedField obj "metadata" "name").
Definition GetNamespace (obj : gmap string value) : string := stringOf (nestedField obj "metadata" "namespace").
Definition GetSelfLink (obj : gmap string value) : string := stringOf (nestedField obj "metadata" "selfLink").
Definition GetResourceVersion (obj : gmap string value) : string := stringOf (nestedField obj "metadata" "resourceVersion").
Definition GetUID (obj : gmap string value) : string := stringOf (nestedField obj "metadata" "uid").

(** The owner references, as the raw list under [metadata.ownerReferences]. *)
Definition GetOwnerReferences (obj : gmap string value) : list value :=
  match nestedField obj "metadata" "ownerReferences" with
  | Some (VList refs) => refs
  | _ => []
  end.

(** [u.setNestedField(v, f1, f2)]: creates the mapping [f1] when the key is
    missing, gives up (the error is dropped) when [f1] is bound to something
    that is not a mapping. *)
Definition setNestedField (v : value) (f1 f2 : string) (obj : gmap string value)
    : gmap string value :=
  match obj !! f1 with
  | None => <[f1 := VMap {[f2 := v]}]> obj
  | Some (VMap m) => <[f1 := VMap (<[f2 := v]> m)]> obj
  | Some _ => obj
  end.

(** [RemoveNestedField(obj, f1, f2)]. *)
Definition RemoveNestedField (f1 f2 : string) (obj : gmap string value)
    : gmap string value :=
  match obj !! f1 with
  | Some (VMap m) => <[f1 := VMap (delete f2 m)]> obj
  | _ => obj
  end.

(** The string setters remove the field when they are given [""]. *)
Definition setNestedString (s : string) (f1 f2 : string) (obj : gmap string value)
    : gmap string value :=
  if bool_decide (s = "") then RemoveNestedField f1 f2 obj
  else setNestedField (VString s) f1 f2 obj.

Definition SetNamespace (namespace : string) := setNestedString namespace "metadata" "namespace".
Definition SetSelfLink (selfLink : string) := setNestedString selfLink "metadata" "selfLink".
Definition SetResourceVersion (rv : string) := setNestedString rv "metadata" "resourceVersion".
Definition SetUID (uid : string) := setNestedString uid "metadata" "uid".

(** [SetOwnerReferences] with a slice that is not [nil] stores the list, also
    when it is empty. *)
Definition SetOwnerReferences (refs : list value) :=
  setNestedField (VList refs) "metadata" "ownerReferences".

(** [obj.GetObjectKind().GroupVersionKind()]: an apiVersion that does not
    parse gives the zero triple. *)
Definition GroupVersionKindOf (obj : gmap string value) : GroupVersionKind :=
  match ParseGroupVersion (GetAPIVersion obj) with
  | Ok gv => {| gvkGroup := gvGroup gv; gvkVersion := gvVersion gv; gvkKind := GetKind obj |}
  | Err _ => {| gvkGroup := ""; gvkVersion := ""; gvkKind := "" |}
  end.

(** [obj.SetGroupVersionKind(gvk)]: [SetAPIVersion] then [SetKind], two
    top-level fields. *)
Definition SetGroupVersionKind (gvk : GroupVersionKind) (obj : gmap string value)
    : gmap string value :=
  <["kind" := VString (gvkKind gvk)]>
    (<["apiVersion" := VString (GroupVersionString gvk)]> obj).

(** [obj.IsList()]: the object has an [items] field that is a sequence. *)
Definition IsList (obj : gmap string value) : bool :=
  match obj !! "items" with
  | Some (VList _) => true
  | _ => false
  end.

(** ** The cluster

    What the program does to the outside is recorded, in order, in a trace:
    the lines it logs and the requests it sends.  The cluster answers a
    request as a function of the trace so far, so that it may answer the same
    request differently the second time. *)
Inductive Event : Type :=
  | EvLog (line : string)
  | EvDiscovery (groupVersion : string)
  | EvCreate (gvr : GroupVersionResource) (namespace : option string)
             (obj : gmap string value)
  | EvPatch (gvr : GroupVersionResource) (namespace : option string)
            (name : string) (body : string).

Abbreviation Trace := (list Event).

(** [metav1.APIResource], the fields the program reads or writes. *)
Record APIResource : Type := {
  resName : string;
  resNamespaced : bool;
  resKind : string;
  resGroup : string;
  resVersion : string
}.

(** The zero value [metav1.APIResource{}]. *)
Definition zeroAPIResource : APIResource :=
  {| resName := ""; resNamespaced := false; resKind := "";
     resGroup := ""; resVersion := "" |}.

(** The answers to a create call, as the program tells them apart. *)
Inductive CreateResult : Type :=
  | Created
  | AlreadyExists (err : error)
  | CreateFailed (err : error).

(** What a [*rest.Config] gives access to. *)
Record Config : Type := {
  (** [discovery.NewDiscoveryClientForConfig(config)] *)
  newDiscoveryClient : option error;
  (** [discoveryClient.ServerResourcesForGroupVersion(gv)] *)
  serverResourcesForGroupVersion : Trace → string → result (list APIResource);
  (** [dynamic.NewForConfig(config)] *)
  newDynamicClient : option error;
  (** [dynamicClient.Create(ctx, &obj, metav1.CreateOptions{})] *)
  createResponse : Trace → GroupVersionResource → option string →
                   gmap string value → CreateResult;
  (** [dynamicClient.Patch(ctx, name, types.StrategicMergePatchType, b, ...)] *)
  patchResponse : Trace → GroupVersionResource → option string →
                  string → string → option error
}.

(** ** [getAPIResourceForGVK] (kedge.go 132-154, part_000 149-171) *)

(** The loop over [resList.APIResources]: the first entry of the right kind
    whose name has no ["/"], stamped with the group and version asked for;
    [res], the zero value, when the loop ends without a [break]. *)
Fixpoint findAPIResource (gvk : GroupVersionKind) (resources : list APIResource)
    (res : APIResource) : APIResource :=
  match resources with
  | [] => res
  | resource :: rest =>
      if bool_decide (resKind resource = gvkKind gvk) && negb (contains (resName resource) "/")
      then {| resName := resName resource;
              resNamespaced := resNamespaced resource;
              resKind := resKind resource;
              resGroup := gvkGroup gvk;
              resVersion := gvkVersion gvk |}
      else findAPIResource gvk rest res
  end.

Definition getAPIResourceForGVK (gvk : GroupVersionKind) (config : Config)
    (tr : Trace) : (APIResource * option error) * Trace :=
  let res := zeroAPIResource in
  match newDiscoveryClient config with
  | Some err =>
      ((res, Some err), tr ++ [EvLog ("[ERROR] unable to create discovery client " +:+ err)])
  | None =>
      let tr1 := tr ++ [EvDiscovery (GroupVersionString gvk)] in
      match serverResourcesForGroupVersion config tr (GroupVersionString gvk) with
      | Err err =>
          ((res, Some err),
           tr1 ++ [EvLog ("[ERROR] unable to retrieve resource list for: " +:+
                          GroupVersionString gvk +:+ " , error: " +:+ err)])
      | Ok resources => ((findAPIResource gvk resources res, None), tr1)
      end
  end.

(** ** [getDynamicClientOnKind] (kedge.go 110-130, part_000 127-147)

    The client that [intf.Resource(gvr)] returns is the resource it is bound
    to. *)
Definition getDynamicClientOnKind (apiversion kind : string) (config : Config)
    (tr : Trace) : result (GroupVersionResource * bool) * Trace :=
  let gvk := FromAPIVersionAndKind apiversion kind in
  match getAPIResourceForGVK gvk config tr with
  | ((_, Some err), tr1) =>
      (Err ("unable to get apiresource from unstructured: " +:+ GVKString gvk +:+ ": " +:+ err),
       tr1 ++ [EvLog ("[ERROR] unable to get apiresource from unstructured: " +:+
                      GVKString gvk +:+ " , error " +:+ err)])
  | ((apiRes, None), tr1) =>
      let gvr := {| gvrGroup := resGroup apiRes;
                    gvrVersion := resVersion apiRes;
                    gvrResource := resName apiRes |} in
      match newDynamicClient config with
      | Some err => (Err err, tr1 ++ [EvLog ("[ERROR] unable to get dynamic client " +:+ err)])
      | None => (Ok (gvr, resNamespaced apiRes), tr1)
      end
  end.

(** The [%s '%s/%s'] of the log lines and error messages. *)
Definition describe (kind namespace name : string) : string :=
  kind +:+ " '" +:+ namespace +:+ "/" +:+ name +:+ "'".

(** [obj.EachListItem(fn)]: [fn] runs on the items in order and the first
    error, of [fn] or of an item that is not a mapping, ends the loop.  The
    result is [None] when [fn] does not return (it ran out of [fuel]). *)
Fixpoint eachItem (fn : gmap string value → Trace → option (option error * Trace))
    (items : list value) (tr : Trace) : option (option error * Trace) :=
  match items with
  | [] => Some (None, tr)
  | VMap child :: rest =>
      match fn child tr with
      | None => None
      | Some (Some err, tr1) => Some (Some err, tr1)
      | Some (None, tr1) => eachItem fn rest tr1
      end
  | _ :: _ => Some (Some "items member is not an object", tr)
  end.

Definition EachListItem (obj : gmap string value)
    (fn : gmap string value → Trace → option (option error * Trace))
    (tr : Trace) : option (option error * Trace) :=
  match obj !! "items" with
  | Some (VList items) => eachItem fn items tr
  | _ => Some (Some "content is not a list", tr)
  end.

(** ** Notions used to state the properties *)

(** The items of a document: those of its [items] sequence, none when it has
    no such sequence. *)
Definition listItems (obj : gmap string value) : list value :=
  match obj !! "items" with
  | Some (VList items) => items
  | _ => []
  end.

(** The [metadata] of a document is a mapping, or is missing. *)
Definition metadataOk (obj : gmap string value) : bool :=
  match obj !! "metadata" with
  | None | Some (VMap _) => true
  | Some _ => false
  end.

(** The four fields of [metadata] that the server manages. *)
Definition serverManaged : list string :=
  ["selfLink"; "resourceVersion"; "uid"; "ownerReferences"].

(** Running [run] on every text in turn, whatever each run leaves. *)
Fixpoint runAll (run : string → Trace → option Trace) (texts : list string)
    (tr : Trace) : option Trace :=
  match texts with
  | [] => Some tr
  | b :: rest =>
      match run b tr with
      | None => None
      | Some tr1 => runAll run rest tr1
      end
  end.

(** Running [run] on the texts in turn up to the first one that returns an
    error, which is the result. *)
Fixpoint runUntilError (run : string → Trace → option (option error * Trace))
    (texts : list string) (tr : Trace) : option (option error * Trace) :=
  match texts with
  | [] => Some (None, tr)
  | b :: rest =>
      match run b tr with
      | None => None
      | Some (Some err, tr1) => Some (Some err, tr1)
      | Some (None, tr1) => runUntilError run rest tr1
      end
  end.

(** The requests of a trace that create or patch an object. *)
Definition isRequest (ev : Event) : bool :=
  match ev with
  | EvCreate _ _ _ | EvPatch _ _ _ _ => true
  | _ => false
  end.

(** The requests that follow the create call, if any, go to the same client. *)
Definition sameClient (client : GroupVersionResource) (scope : option string)
    (ev : Event) : Prop :=
  match ev with
  | EvCreate _ _ _ => False
  | EvPatch c s _ _ => c = client ∧ s = scope
  | _ => True
  end.

(** ** The file system and the template engine *)

(** What the program asks of the operating system besides reading files. *)
Record Os : Type := {
  (** [os.TempDir()] *)
  TempDir : string;
  (** the directories that exist *)
  isDir : string → bool;
  (** [ioutil.TempFile(dir, "tmp_")]: the path of the file it creates *)
  TempFile : FS → string → result string
}.

(** [text/template] with the sprig functions. *)
Record Engine : Type := {
  (** parsing the text of a template file *)
  parse : string → option error;
  (** [tpl.Execute(w, data)]: what is written to [w] *)
  execute : string → gmap string value → result string
}.

(** The base name of a path, as [os.FileInfo.Name] and [filepath.Base] give
    it for the path of a file. *)
Definition basename (path : string) : string :=
  default "" (last (splitOn slash path)).

(** [os.Stat(name)]: the [Name()] of the file information. *)
Definition Stat (os : Os) (fs : FS) (name : string) : result string :=
  if bool_decide (is_Some (fs !! name)) || isDir os name then Ok (basename name)
  else Err ("stat " +:+ name +:+ ": no such file or directory").

(** [ioutil.ReadFile(path)]. *)
Definition ReadFile (fs : FS) (path : string) : result string :=
  match fs !! path with
  | Some content => Ok content
  | None => Err ("open " +:+ path +:+ ": no such file or directory")
  end.

(** [template.New(name).Funcs(fmap).ParseFiles(templateFile)]: the text that
    [Execute] will run.  [ParseFiles] stores what it parsed under the base
    name of the file; [Execute] runs the template called [name]. *)
Definition ParseFiles (engine : Engine) (fs : FS) (name templateFile : string)
    : result string :=
  match ReadFile fs templateFile with
  | Err err => Err err
  | Ok text =>
      match parse engine text with
      | Some err => Err err
      | None => Ok text
      end
  end.

(** [tpl.Execute(tmp, data)] for the template called [name] after
    [ParseFiles(templateFile)]. *)
Definition Execute (engine : Engine) (name templateFile text : string)
    (data : gmap string value) : result string :=
  if bool_decide (name = basename templateFile) then execute engine text data
  else Err ("template: " +:+ name +:+ ": incomplete or empty template").

(** ** [fileContains] (kedge.go 229-248, part_000 257-276) *)

(** [bufio.MaxScanTokenSize]: a line of that many bytes or more makes the
    scanner stop with [bufio.ErrTooLong]. *)
Definition MaxScanTokenSize : N := 65536.

(** The tokens of [bufio.ScanLines], before the carriage return is dropped:
    the text between newlines, without a last empty line. *)
Definition scanLines (content : string) : list string :=
  let fields := splitOn newline content in
  match last fields with
  | Some "" => removelast fields
  | _ => fields
  end.

(** What [scanner.Text()] returns for a line: a final ['\r'] is dropped. *)
Fixpoint dropCR (line : string) : string :=
  match line with
  | "" => ""
  | String c "" => if Ascii.eqb c carriageReturn then "" else line
  | String c rest => String c (dropCR rest)
  end.

(** The loop [for scanner.Scan()] followed by the test of [scanner.Err()]. *)
Fixpoint scanFor (substring : string) (lines : list string) : bool * option error :=
  match lines with
  | [] => (false, None)
  | line :: rest =>
      if (MaxScanTokenSize <=? N.of_nat (String.length line))%N
      then (false, Some "bufio.Scanner: token too long")
      else if contains (dropCR line) substring then (true, None)
      else scanFor substring rest
  end.

Definition fileContains (fs : FS) (path substring : string) : bool * option error :=
  match fs !! path with
  | None => (false, Some ("open " +:+ path +:+ ": no such file or directory"))
  | Some content => scanFor substring (scanLines content)
  end.

(** Every line of a text is short enough for the scanner. *)
Definition fitsScanner (content : string) : bool :=
  forallb (λ line, (N.of_nat (String.length line) <? MaxScanTokenSize)%N) (scanLines content).

(** The byte [c] occurs in [s]. *)
Fixpoint hasByte (c : Ascii.ascii) (s : string) : bool :=
  match s with
  | "" => false
  | String a rest => Ascii.eqb a c || hasByte c rest
  end.

(** * [src/kedge.go] *)

Module KedgeGo.

(** ** [render] (kedge.go 162-195)

    [fuel] bounds the depth of the recursion, that is the number of passes;
    [None] is a call that needs more.  The temporary file is created empty,
    written by [Execute] and removed on every way out ([defer]). *)
Fixpoint render (fuel : nat) (engine : Engine) (os : Os) (file templateFile : string)
    (data : gmap string value) (fs : FS) : option (result string * FS) :=
  match fuel with
  | 0 => None
  | S fuel' =>
      match ParseFiles engine fs file templateFile with
      | Err err => Some (Err err, fs)
      | Ok tpl =>
          match TempFile os fs "" with
          | Err err => Some (Err err, fs)
          | Ok tmp =>
              let fs1 := <[tmp := ""]> fs in
              match Stat os fs1 tmp with
              | Err err => Some (Err err, delete tmp fs1)
              | Ok f =>
                  match Execute engine file templateFile tpl data with
                  | Err err => Some (Err err, delete tmp fs1)
                  | Ok out =>
                      let fs2 := <[tmp := out]> fs1 in
                      match fileContains fs2 tmp "{{" with
                      | (_, Some err) => Some (Err err, delete tmp fs2)
                      | (true, None) =>
                          match render fuel' engine os f tmp data fs2 with
                          | None => None
                          | Some (b, fs3) => Some (b, delete tmp fs3)
                          end
                      | (false, None) => Some (ReadFile fs2 tmp, delete tmp fs2)
                      end
                  end
              end
          end
      end
  end.

(** ** [createOrUpdateResource], one resource (kedge.go 73-106)

    [b] is the text the object was decoded from; the patch sends it as it
    is. *)
Definition createOrUpdateOne (config : Config) (b namespace : string)
    (obj : gmap string value) (tr : Trace) : Trace :=
  let gvk := GroupVersionKindOf obj in
  match getDynamicClientOnKind (GroupVersionString gvk) (gvkKind gvk) config tr with
  | (Err err, tr1) =>
      tr1 ++ [EvLog ("ERROR: could not get a client to handle resource: " +:+ err)]
  | (Ok (namespaceableResourceClient, isNamespaced), tr1) =>
      let dynamicClient := if isNamespaced then Some namespace else None in
      let obj := SetNamespace namespace obj in
      let obj := SetResourceVersion "" obj in
      let obj := SetUID "" obj in
      let obj := SetOwnerReferences [] obj in
      let described := describe (gvkKind gvk) namespace (GetName obj) in
      let tr2 := tr1 ++ [EvCreate namespaceableResourceClient dynamicClient obj] in
      match createResponse config tr1 namespaceableResourceClient dynamicClient obj with
      | Created => tr2 ++ [EvLog (described +:+ " has been created")]
      | AlreadyExists _ =>
          let tr3 := tr2 ++ [EvLog (described +:+ " already exists. Updating resource")] in
          let tr4 := tr3 ++ [EvPatch namespaceableResourceClient dynamicClient (GetName obj) b] in
          match patchResponse config tr3 namespaceableResourceClient dynamicClient
                  (GetName obj) b with
          | Some err => tr4 ++ [EvLog ("ERROR: could not patch " +:+ described +:+ ": " +:+ err)]
          | None => tr4 ++ [EvLog (described +:+ " has been updated")]
          end
      | CreateFailed err =>
          tr2 ++ [EvLog ("ERROR: could not create " +:+ described +:+ ": " +:+ err)]
      end
  end.

(** ** [createOrUpdateResource] (kedge.go 51-107)

    The function returns nothing: what it does is the trace it leaves.
    [fuel] bounds the nesting of lists; [None] is a call that needs more.
    The value that [EachListItem] returns is dropped. *)
Fixpoint createOrUpdateResource (fuel : nat) (codec : Codec) (b namespace : string)
    (config : Config) (tr : Trace) : option Trace :=
  match fuel with
  | 0 => None
  | S fuel' =>
      match yamlUnmarshalObject codec b with
      | Err err => Some (tr ++ [EvLog ("ERROR: could not unmarshal resource: " +:+ err)])
      | Ok obj =>
          if IsList obj then
            match EachListItem obj
                    (λ item tr,
                       match jsonMarshal codec item with
                       | Err err => Some (Some err, tr)
                       | Ok b =>
                           match createOrUpdateResource fuel' codec b namespace config tr with
                           | None => None
                           | Some tr1 => Some (None, tr1)
                           end
                       end) tr with
            | None => None
            | Some (_, tr1) => Some tr1
            end
          else Some (createOrUpdateOne config b namespace obj tr)
      end
  end.

(** ** [Apply] (kedge.go 29-49)

    [templateData] is lines 31 to 35: the merged values with the
    [namespace] entry set. *)
Definition templateData (codec : Codec) (fs : FS) (namespace : string)
    (valueFilenames : list string) : result (gmap string value) :=
  match combineValues codec fs valueFilenames false with
  | (_, Some err) => Err err
  | (data, None) => Ok (<["namespace" := VString namespace]> data)
  end.

Definition Apply (fuel : nat) (codec : Codec) (engine : Engine) (os : Os)
    (config : Config) (inputFilename namespace : string)
    (valueFilenames : list string) (fs : FS) (tr : Trace)
    : option (option error * FS * Trace) :=
  match templateData codec fs namespace valueFilenames with
  | Err err => Some (Some err, fs, tr)
  | Ok data =>
      match Stat os fs inputFilename with
      | Err err => Some (Some err, fs, tr)
      | Ok f =>
          match render fuel engine os f inputFilename data fs with
          | None => None
          | Some (Err err, fs1) => Some (None, fs1, tr)
          | Some (Ok b, fs1) =>
              match createOrUpdateResource fuel codec b namespace config tr with
              | None => None
              | Some tr1 => Some (None, fs1, tr1)
              end
          end
      end
  end.

End KedgeGo.

(** * [src/unnamed/part_000] *)

Module Part000.

(** ** [tmpdir] (part_000 216-223) *)
Definition tmpdir (os : Os) (fs : FS) : string :=
  let t := TempDir os in
  match Stat os fs t with
  | Err _ => "."
  | Ok _ => t
  end.

(** ** [render] (part_000 194-214): one pass. *)
Definition render (engine : Engine) (os : Os) (file templateFile : string)
    (data : gmap string value) (fs : FS) : result string * FS :=
  match ParseFiles engine fs file templateFile with
  | Err err => (Err err, fs)
  | Ok tpl =>
      match TempFile os fs (tmpdir os fs) with
      | Err err => (Err err, fs)
      | Ok tmp =>
          let fs1 := <[tmp := ""]> fs in
          match Execute engine file templateFile tpl data with
          | Err err => (Err err, delete tmp fs1)
          | Ok out =>
              let fs2 := <[tmp := out]> fs1 in
              (ReadFile fs2 tmp, delete tmp fs2)
          end
      end
  end.

(** ** [makeNewPatchableData] (part_000 173-186): the text of the patch
    and the object, which [SetGroupVersionKind] updates in place. *)
Definition makeNewPatchableData (codec : Codec) (obj : gmap string value)
    : result (string * gmap string value) :=
  match objectKinds codec obj with
  | Err err => Err err
  | Ok [] => Err "No gvks identified"
  | Ok (gvk :: _) =>
      let obj := SetGroupVersionKind gvk obj in
      Ok (encode codec obj, obj)
  end.

(** ** [createOrUpdateResource], one resource (part_000 76-123) *)
Definition createOrUpdateOne (codec : Codec) (config : Config) (namespace : string)
    (obj : gmap string value) (tr : Trace) : option error * Trace :=
  let gvk := GroupVersionKindOf obj in
  if bool_decide (gvkKind gvk = "List") then (None, tr)
  else
    match getDynamicClientOnKind (GroupVersionString gvk) (gvkKind gvk) config tr with
    | (Err err, tr1) =>
        (Some ("ERROR: could not get a client to handle resource: " +:+ err), tr1)
    | (Ok (namespaceableResourceClient, isNamespaced), tr1) =>
        let '(namespace, obj, dynamicClient) :=
          if isNamespaced then
            if bool_decide (GetNamespace obj ≠ "")
            then (GetNamespace obj, obj, Some (GetNamespace obj))
            else (namespace, SetNamespace namespace obj, Some namespace)
          else (namespace, obj, None) in
        let obj := SetSelfLink "" obj in
        let obj := SetResourceVersion "" obj in
        let obj := SetUID "" obj in
        let obj := SetOwnerReferences [] obj in
        let described := describe (gvkKind gvk) namespace (GetName obj) in
        let tr2 := tr1 ++ [EvCreate namespaceableResourceClient dynamicClient obj] in
        match createResponse config tr1 namespaceableResourceClient dynamicClient obj with
        | Created => (None, tr2 ++ [EvLog (described +:+ " has been created")])
        | AlreadyExists _ =>
            let tr3 := tr2 ++ [EvLog (described +:+ " already exists. Updating resource")] in
            match makeNewPatchableData codec obj with
            | Err err =>
                (Some ("could not marshal resource" +:+ describe "" namespace (GetName obj) +:+
                       ": " +:+ err), tr3)
            | Ok (b, obj) =>
                let described := describe (gvkKind gvk) namespace (GetName obj) in
                let tr4 := tr3 ++ [EvPatch namespaceableResourceClient dynamicClient
                                     (GetName obj) b] in
                match patchResponse config tr3 namespaceableResourceClient dynamicClient
                        (GetName obj) b with
                | Some err =>
                    (Some ("ERROR: could not patch " +:+ described +:+ ": " +:+ err), tr4)
                | None => (None, tr4 ++ [EvLog (described +:+ " has been updated")])
                end
            end
        | CreateFailed err =>
            (Some ("ERROR: could not create " +:+ described +:+ ": " +:+ err), tr2)
        end
    end.

(** ** [createOrUpdateResource] (part_000 53-124)

    [fuel] bounds the nesting of lists; [None] is a call that needs more. *)
Fixpoint createOrUpdateResource (fuel : nat) (codec : Codec) (b namespace : string)
    (config : Config) (tr : Trace) : option (option error * Trace) :=
  match fuel with
  | 0 => None
  | S fuel' =>
      match yamlUnmarshalObject codec b with
      | Err err => Some (Some ("ERROR: could not unmarshal resource: " +:+ err), tr)
      | Ok obj =>
          if IsList obj then
            match EachListItem obj
                    (λ item tr,
                       match jsonMarshal codec item with
                       | Err err => Some (Some err, tr)
                       | Ok b => createOrUpdateResource fuel' codec b namespace config tr
                       end) tr with
            | None => None
            | Some (Some err, tr1) => Some (Some err, tr1)
            | Some (None, tr1) => Some (None, tr1)
            end
          else Some (createOrUpdateOne codec config namespace obj tr)
      end
  end.

(** ** [Apply] (part_000 32-51)

    [templateData] is lines 34 to 38: the merged values with the
    [namespace] entry set. *)
Definition templateData (codec : Codec) (fs : FS) (namespace : string)
    (valueFilenames : list string) : result (gmap string value) :=
  match combineValues codec fs valueFilenames false with
  | (_, Some err) => Err ("error reading in values data: " +:+ err)
  | (data, None) => Ok (<["namespace" := VString namespace]> data)
  end.

Definition Apply (fuel : nat) (codec : Codec) (engine : Engine) (os : Os)
    (config : Config) (inputFilename namespace : string)
    (valueFilenames : list string) (fs : FS) (tr : Trace)
    : option (option error * FS * Trace) :=
  match templateData codec fs namespace valueFilenames with
  | Err err => Some (Some err, fs, tr)
  | Ok data =>
      match Stat os fs inputFilename with
      | Err err => Some (Some ("could not stat file: " +:+ err), fs, tr)
      | Ok f =>
          match render engine os f inputFilename data fs with
          | (Err err, fs1) => Some (Some ("could not render template: " +:+ err), fs1, tr)
          | (Ok b, fs1) =>
              match createOrUpdateResource fuel codec b namespace config tr with
              | None => None
              | Some (err, tr1) => Some (err, fs1, tr1)
              end
          end
      end
  end.

End Part000.

(** * A small world to run the functions in

    A template engine that knows one action, [{{ .key }}]; a codec that
    decodes the handful of texts listed in its tables; an operating system
    with one directory; clusters that serve the core group. *)

Module Scenario.

(** *** The engine *)

Inductive Mode : Type :=
  | Text                  (* outside an action *)
  | Opening               (* after the first brace of the opening marker *)
  | Action (name : string) (* inside an action, the text read so far *)
  | Closing (name : string). (* after the first brace of the closing marker *)

Definition openBrace : Ascii.ascii := Ascii.ascii_of_nat 123.
Definition closeBrace : Ascii.ascii := Ascii.ascii_of_nat 125.
Definition space : Ascii.ascii := Ascii.ascii_of_nat 32.
Definition dot : Ascii.ascii := Ascii.ascii_of_nat 46.

(** The key of [ .key ]: the blanks and the leading dot removed. *)
Fixpoint keyOf (name : string) : string :=
  match name with
  | "" => ""
  | String c rest =>
      if Ascii.eqb c space || Ascii.eqb c dot then keyOf rest
      else String c (keyOf rest)
  end.

(** What an action prints. *)
Definition printKey (data : gmap string value) (name : string) : string :=
  match data !! keyOf name with
  | Some (VString s) => s
  | _ => "<no value>"
  end.

Fixpoint expand (data : gmap string value) (mode : Mode) (text : string)
    : result string :=
  match text with
  | "" =>
      match mode with
      | Text => Ok ""
      | _ => Err "unclosed action"
      end
  | String c rest =>
      match mode with
      | Text =>
          if Ascii.eqb c openBrace && String.prefix (String openBrace "") rest
          then expand data Opening rest
          else match expand data Text rest with
               | Ok out => Ok (String c out)
               | Err err => Err err
               end
      | Opening => expand data (Action "") rest
      | Action name =>
          if Ascii.eqb c closeBrace && String.prefix (String closeBrace "") rest
          then expand data (Closing name) rest
          else expand data (Action (name +:+ String c "")) rest
      | Closing name =>
          match expand data Text rest with
          | Ok out => Ok (printKey data name +:+ out)
          | Err err => Err err
          end
      end
  end.

Definition engine : Engine :=
  {| parse := λ text, match expand ∅ Text text with Ok _ => None | Err err => Some err end;
     execute := λ text data, expand data Text text |}.

(** *** The operating system: [/tmp] exists, temporary files are numbered
    by the number of files present. *)
Definition os : Os :=
  {| TempDir := "/tmp";
     isDir := λ path, bool_decide (path = "/tmp");
     TempFile := λ fs dir,
       Ok ((if bool_decide (dir = "") then "/tmp" else dir) +:+ "/tmp_" +:+ pretty (size fs)) |}.

(** *** The documents *)

Definition ownerRef : value :=
  VMap {[ "kind" := VString "Deployment"; "name" := VString "web" ]}.

(** A ConfigMap as [kubectl get -o yaml] prints it, with its own namespace
    and the fields that the server manages. *)
Definition settings : gmap string value :=
  {[ "apiVersion" := VString "v1";
     "kind" := VString "ConfigMap";
     "metadata" := VMap {[ "name" := VString "settings";
                           "namespace" := VString "team-b";
                           "selfLink" := VString "/api/v1/namespaces/team-b/configmaps/settings";
                           "resourceVersion" := VString "41";
                           "uid" := VString "7c1f";
                           "ownerReferences" := VList [ownerRef];
                           "labels" := VMap {[ "app" := VString "web" ]} ]};
     "data" := VMap {[ "mode" := VString "fast" ]} ]}.

(** A ConfigMap with a name and nothing else. *)
Definition configMap (name : string) : gmap string value :=
  {[ "apiVersion" := VString "v1";
     "kind" := VString "ConfigMap";
     "metadata" := VMap {[ "name" := VString name ]} ]}.

Definition first : gmap string value := configMap "first".
Definition second : gmap string value := configMap "second".

(** A list of two resources, a list with no item and a [List] document
    without the [items] field. *)
Definition pair : gmap string value :=
  {[ "apiVersion" := VString "v1";
     "kind" := VString "List";
     "items" := VList [VMap first; VMap second] ]}.

Definition emptyList : gmap string value :=
  {[ "apiVersion" := VString "v1"; "kind" := VString "List"; "items" := VList [] ]}.

Definition bareList : gmap string value :=
  {[ "apiVersion" := VString "v1"; "kind" := VString "List" ]}.

(** Two value files; the second one also gives a [namespace]. *)
Definition valuesBase : gmap string value :=
  {[ "env" := VString "dev";
     "replicas" := VNumber 1;
     "image" := VMap {[ "name" := VString "web"; "tag" := VString "1.0" ]} ]}.

Definition valuesProd : gmap string value :=
  {[ "env" := VString "prod";
     "namespace" := VString "from-values";
     "image" := VMap {[ "tag" := VString "2.0" ]} ]}.

(** Values of which one is itself a piece of template. *)
Definition nestedValues : gmap string value :=
  {[ "greeting" := VString "hello {{ .who }}"; "who" := VString "world" ]}.

(** *** The codec: texts are decoded by table; an item is marshalled to
    the text that the table decodes to it. *)
Definition objectTable : gmap string (gmap string value) :=
  {[ "settings.yaml" := settings;
     "first.json" := first;
     "second.json" := second;
     "pair.yaml" := pair;
     "empty-list.yaml" := emptyList;
     "bare-list.yaml" := bareList ]}.

Definition valuesTable : gmap string (gmap string value) :=
  {[ "env: dev" := valuesBase; "env: prod" := valuesProd ]}.

Definition decodeWith (table : gmap string (gmap string value)) (text : string)
    : result (gmap string value) :=
  match table !! text with
  | Some decoded => Ok decoded
  | None => Err "yaml: did not find expected node content"
  end.

Definition codec : Codec :=
  {| yamlUnmarshalMap := decodeWith valuesTable;
     yamlUnmarshalObject := decodeWith objectTable;
     jsonMarshal := λ item, Ok (GetName item +:+ ".json");
     objectKinds := λ obj, Ok [GroupVersionKindOf obj];
     encode := λ obj, GetName obj +:+ ".patch" |}.

(** *** The files *)
Definition files : FS :=
  {[ "base.yaml" := "env: dev";
     "prod.yaml" := "env: prod";
     "broken.yaml" := "name: {{ .env";
     "nested.yaml" := "name: {{ .greeting }}" ]}.

(** *** The cluster: the core group with ConfigMaps, Pods and their
    [status] sub-resource listed first.  The ConfigMap [first] is refused,
    [settings] exists already, a request outside a resource is not found,
    anything else is created. *)
Definition coreResources : list APIResource :=
  [ {| resName := "pods/status"; resNamespaced := true; resKind := "Pod";
       resGroup := ""; resVersion := "" |};
    {| resName := "pods"; resNamespaced := true; resKind := "Pod";
       resGroup := ""; resVersion := "" |};
    {| resName := "configmaps"; resNamespaced := true; resKind := "ConfigMap";
       resGroup := ""; resVersion := "" |};
    {| resName := "namespaces"; resNamespaced := false; resKind := "Namespace";
       resGroup := ""; resVersion := "" |} ].

Definition config : Config :=
  {| newDiscoveryClient := None;
     serverResourcesForGroupVersion := λ _ groupVersion,
       if bool_decide (groupVersion = "v1") then Ok coreResources
       else Err "the server could not find the requested resource";
     newDynamicClient := None;
     createResponse := λ _ gvr _ obj,
       if bool_decide (gvrResource gvr = "") then CreateFailed "the server could not find the requested resource"
       else if bool_decide (GetName obj = "first") then CreateFailed "admission webhook denied the request"
       else if bool_decide (GetName obj = "settings") then AlreadyExists "configmaps settings already exists"
       else Created;
     patchResponse := λ _ _ _ _ _, None |}.

(** The requests of a trace: the names of the objects it tried to create. *)
Definition created (tr : Trace) : list string :=
  omap (λ ev, match ev with EvCreate _ _ obj => Some (GetName obj) | _ => None end) tr.

End Scenario.

(** * More cases to run the functions on *)

Module Cases.

(** [n] times the byte [c]. *)
Fixpoint repeatByte (n : nat) (c : Ascii.ascii) : string :=
  match n with
  | 0 => ""
  | S n' => String c (repeatByte n' c)
  end.

(** A text whose first line has 65536 bytes and whose second line holds the
    marker of a template action. *)
Definition longFirstLine : string :=
  repeatByte (2 ^ 16) (Ascii.ascii_of_nat 97) +:+ String newline "{{ .env }}".

(** A value that prints the action that prints it. *)
Definition loopValues : gmap string value := {[ "again" := VString "{{ .again }}" ]}.

Definition loopFiles : FS := {[ "loop.yaml" := "{{ .again }}" ]}.

(** An operating system whose temporary files are always new. *)
Definition os : Os :=
  {| TempDir := "/tmp";
     isDir := λ path, bool_decide (path = "/tmp");
     TempFile := λ fs dir, Ok (fresh_string (dir +:+ "/tmp_") fs) |}.

(** A cluster whose discovery cannot be reached, and a configuration from
    which no dynamic client can be built. *)
Definition unreachable : Config :=
  {| newDiscoveryClient := None;
     serverResourcesForGroupVersion := λ _ _, Err "connection refused";
     newDynamicClient := None;
     createResponse := λ _ _ _ _, Created;
     patchResponse := λ _ _ _ _ _, None |}.

Definition noDynamicClient : Config :=
  {| newDiscoveryClient := None;
     serverResourcesForGroupVersion := λ _ _, Ok Scenario.coreResources;
     newDynamicClient := Some "host must be a URL or a host:port pair";
     createResponse := λ _ _ _ _, Created;
     patchResponse := λ _ _ _ _ _, None |}.

(** A resource of a kind that the catalog of the core group does not list. *)
Definition widget : gmap string value :=
  {[ "apiVersion" := VString "v1";
     "kind" := VString "Widget";
     "metadata" := VMap {[ "name" := VString "w1" ]} ]}.

(** A list whose second item is not a mapping. *)
Definition mixed : gmap string value :=
  {[ "apiVersion" := VString "v1";
     "kind" := VString "List";
     "items" := VList [VMap Scenario.second; VString "stray"; VMap Scenario.second] ]}.

Definition codec : Codec :=
  {| yamlUnmarshalMap := Scenario.decodeWith Scenario.valuesTable;
     yamlUnmarshalObject :=
       Scenario.decodeWith (<["widget.yaml" := widget]> (<["mixed.yaml" := mixed]> Scenario.objectTable));
     jsonMarshal := λ item, Ok (GetName item +:+ ".json");
     objectKinds := λ obj, Ok [GroupVersionKindOf obj];
     encode := λ obj, GetName obj +:+ ".patch" |}.

End Cases.
(* ===================================================================== *)
(** * Properties *)

(** ** The merge of value files *)

Lemma mergeMaps_unfold d1 d2 r :
  mergeMaps d1 d2 r = map_fold (mergeStep (mergeInto r) r) d1 d2.
Proof. reflexivity. Qed.

(** The loop body only ever assigns to the key it is visiting. *)
Lemma mergeStep_insert r k v d1 :
  mergeStep (mergeInto r) r k v d1 = <[k := mergedValue r (d1 !! k) v]> d1.
Proof.
  unfold mergeStep, mergedValue, mergeMaps.
  destruct v as [| | | |m|m]; try reflexivity.
  - destruct r; [|by destruct (d1 !! k) as [[]|]].
    by destruct (d1 !! k) as [[]|].
  - by destruct (d1 !! k) as [[]|].
Qed.

(** The binding of every key after a merge. *)
Lemma mergeMaps_lookup d1 d2 r k :
  mergeMaps d1 d2 r !! k =
    match d2 !! k with
    | Some v => Some (mergedValue r (d1 !! k) v)
    | None => d1 !! k
    end.
Proof.
  rewrite mergeMaps_unfold.
  apply (map_fold_weak_ind
    (λ acc (m : gmap string value),
       acc !! k = match m !! k with
                  | Some v => Some (mergedValue r (d1 !! k) v)
                  | None => d1 !! k
                  end)).
  - by rewrite lookup_empty.
  - intros i x m acc Hi IH. rewrite mergeStep_insert.
    destruct (decide (i = k)) as [->|Hne].
    + rewrite !lookup_insert_eq. rewrite Hi in IH. by rewrite IH.
    + by rewrite !lookup_insert_ne.
Qed.

(** A value that is not a mapping, and not a sequence when sequences are
    appended, replaces whatever the key held. *)
Lemma mergedValue_scalar r old v : isScalar v = true → mergedValue r old v = v.
Proof. by destruct v. Qed.

Lemma mergedValue_mismatch r old v :
  typeOf old ≠ typeOf v → mergedValue r (Some old) v = v.
Proof. destruct v, old; simpl; congruence. Qed.

(** When every file reads, [combineValues] is the left fold of [mergeMaps]. *)
Lemma combineValuesFrom_foldl codec fs r files ds acc :
  Forall2 (λ file d, readValues codec fs file = Ok d) files ds →
  combineValuesFrom codec fs acc files r =
    (foldl (λ data d, mergeMaps data d r) acc ds, None).
Proof.
  intros Hread. revert acc.
  induction Hread as [|file d files ds Hfile _ IH]; intros acc; simpl.
  - reflexivity.
  - rewrite Hfile. apply IH.
Qed.

(** Files that do not define [k] leave its binding alone. *)
Lemma foldl_mergeMaps_untouched r k (ds : list (gmap string value)) acc :
  Forall (λ d, d !! k = None) ds →
  foldl (λ data d, mergeMaps data d r) acc ds !! k = acc !! k.
Proof.
  intros Hds. revert acc.
  induction Hds as [|d ds Hd _ IH]; intros acc; simpl; [done|].
  rewrite IH, mergeMaps_lookup. by rewrite Hd.
Qed.

(** The new source wins at every nesting level: a scalar it holds at some
    path is what the merge holds at that path. *)
Lemma mergeMaps_path r path :
  ∀ (d1 d2 : gmap string value) v,
    lookupPath path (VMap d2) = Some v → isScalar v = true →
    lookupPath path (VMap (mergeMaps d1 d2 r)) = Some v.
Proof.
  induction path as [|k rest IH]; intros d1 d2 v Hpath Hv.
  - simpl in Hpath. by simplify_eq.
  - simpl in *. rewrite mergeMaps_lookup.
    destruct (d2 !! k) as [v2|] eqn:Hk; [|done].
    destruct rest as [|k' rest].
    + simpl in *. simplify_eq. by rewrite mergedValue_scalar.
    + destruct v2 as [| | | | |m]; try done.
      destruct (d1 !! k) as [[| | | | |n]|]; simpl; try exact Hpath.
      apply (IH n m v Hpath Hv).
Qed.

(** C4.  For value files that all read, in the order given: (a) a key holds
    the scalar that the last file defining the key gives it; (b) in one merge
    step, a key bound to a mapping on both sides is bound to the recursive
    merge of the two mappings; (c) a key whose old and new values differ in
    type is bound to the new value; (d) the same holds at every nesting
    level: a scalar of the new source, at any path, is what the merge holds
    at that path. *)
Theorem combineValues_last_wins codec fs r files ds :
  Forall2 (λ file d, readValues codec fs file = Ok d) files ds →
  ∃ data,
    combineValues codec fs files r = (data, None) ∧
    (∀ i d k v,
       ds !! i = Some d → d !! k = Some v → isScalar v = true →
       (∀ j d', i < j → ds !! j = Some d' → d' !! k = None) →
       data !! k = Some v) ∧
    (∀ (acc d n m : gmap string value) k,
       acc !! k = Some (VMap n) → d !! k = Some (VMap m) →
       mergeMaps acc d r !! k = Some (VMap (mergeMaps n m r))) ∧
    (∀ (acc d : gmap string value) k old v,
       acc !! k = Some old → d !! k = Some v → typeOf old ≠ typeOf v →
       mergeMaps acc d r !! k = Some v) ∧
    (∀ (acc d : gmap string value) path v,
       lookupPath path (VMap d) = Some v → isScalar v = true →
       lookupPath path (VMap (mergeMaps acc d r)) = Some v).
Proof.
  intros Hread. eexists. split; [|split; [|split; [|split]]].
  - unfold combineValues. by apply combineValuesFrom_foldl.
  - intros i d k v Hi Hk Hv Hlater.
    rewrite <- (take_drop_middle ds i d Hi), foldl_app. simpl.
    rewrite foldl_mergeMaps_untouched.
    + rewrite mergeMaps_lookup, Hk. by rewrite mergedValue_scalar.
    + apply Forall_forall. intros d' Hd'.
      apply list_elem_of_lookup in Hd' as [j Hj].
      rewrite lookup_drop in Hj. apply (Hlater (S i + j) d'); [lia|done].
  - intros acc d n m k Hacc Hd. by rewrite mergeMaps_lookup, Hd, Hacc.
  - intros acc d k old v Hacc Hd Hty.
    by rewrite mergeMaps_lookup, Hd, Hacc, mergedValue_mismatch.
  - intros acc d path v. apply mergeMaps_path.
Qed.

(** C10.  A merge removes no key, and the keys of the result are those of
    [d1] together with those of [d2], whatever the flag. *)
Theorem mergeMaps_keys (d1 d2 : gmap string value) (recurseArrays : bool) :
  dom d1 ⊆ dom (mergeMaps d1 d2 recurseArrays) ∧
  dom (mergeMaps d1 d2 recurseArrays) = dom d1 ∪ dom d2.
Proof.
  assert (dom (mergeMaps d1 d2 recurseArrays) = dom d1 ∪ dom d2) as Hdom.
  { apply set_eq. intros k.
    rewrite elem_of_union, !elem_of_dom, mergeMaps_lookup.
    destruct (d2 !! k) as [v|] eqn:Hk.
    - split; [intros _; right; by eexists | intros _; by eexists].
    - split; [by left | intros [H|[? ?]]; [done | done]]. }
  split; [rewrite Hdom; apply union_subseteq_l | exact Hdom].
Qed.

(** ** Discovery *)

(** An entry that the loop of [getAPIResourceForGVK] accepts. *)
Lemma findAPIResource_spec gvk resources :
  let accepts := λ entry : APIResource,
    resKind entry = gvkKind gvk ∧ contains (resName entry) "/" = false in
  (Forall (λ entry, ¬ accepts entry) resources ∧
   findAPIResource gvk resources zeroAPIResource = zeroAPIResource) ∨
  (∃ before entry after,
     resources = before ++ entry :: after ∧
     Forall (λ entry, ¬ accepts entry) before ∧
     accepts entry ∧
     findAPIResource gvk resources zeroAPIResource =
       {| resName := resName entry; resNamespaced := resNamespaced entry;
          resKind := resKind entry;
          resGroup := gvkGroup gvk; resVersion := gvkVersion gvk |}).
Proof.
  intros accepts. induction resources as [|resource rest IH]; simpl.
  - left. by split.
  - destruct (bool_decide (resKind resource = gvkKind gvk)) eqn:Hkind; simpl.
    + apply bool_decide_eq_true in Hkind.
      destruct (contains (resName resource) "/") eqn:Hname; simpl.
      * destruct IH as [[Hnone Hzero]|(before & entry & after & -> & Hbefore & Hentry & Hfound)].
        -- left. split; [|done]. constructor; [|done]. intros [_ ?]. congruence.
        -- right. exists (resource :: before), entry, after.
           repeat split; try done; try apply Hentry.
           constructor; [|done]. intros [_ ?]. congruence.
      * right. exists [], resource, rest. repeat split; done.
    + apply bool_decide_eq_false in Hkind.
      destruct IH as [[Hnone Hzero]|(before & entry & after & -> & Hbefore & Hentry & Hfound)].
      * left. split; [|done]. constructor; [|done]. by intros [? _].
      * right. exists (resource :: before), entry, after.
        repeat split; try done; try apply Hentry.
        constructor; [|done]. by intros [? _].
Qed.

(** C6.  When the catalog of the group-version is served, the resolver
    returns a [nil] error, and what it returns is either the zero resource,
    when no entry has the kind asked for and a name without ["/"], or the
    first such entry, stamped with the group and version asked for. *)
Theorem getAPIResourceForGVK_binds_resources_only gvk config tr resources :
  newDiscoveryClient config = None →
  serverResourcesForGroupVersion config tr (GroupVersionString gvk) = Ok resources →
  ∃ res,
    getAPIResourceForGVK gvk config tr =
      ((res, None), tr ++ [EvDiscovery (GroupVersionString gvk)]) ∧
    ((Forall (λ entry, ¬ (resKind entry = gvkKind gvk ∧
                          contains (resName entry) "/" = false)) resources ∧
      res = zeroAPIResource) ∨
     (∃ before entry after,
        resources = before ++ entry :: after ∧
        Forall (λ entry, ¬ (resKind entry = gvkKind gvk ∧
                            contains (resName entry) "/" = false)) before ∧
        (resKind entry = gvkKind gvk ∧ contains (resName entry) "/" = false) ∧
        res = {| resName := resName entry; resNamespaced := resNamespaced entry;
                 resKind := resKind entry;
                 resGroup := gvkGroup gvk; resVersion := gvkVersion gvk |})).
Proof.
  intros Hclient Hlist. unfold getAPIResourceForGVK. rewrite Hclient, Hlist.
  eexists. split; [reflexivity|]. apply findAPIResource_spec.
Qed.

Lemma getAPIResourceForGVK_binds_resources_only_witness :
  ∃ res,
    getAPIResourceForGVK
      {| gvkGroup := ""; gvkVersion := "v1"; gvkKind := "Pod" |} Scenario.config [] =
      ((res, None), [EvDiscovery "v1"]) ∧
    resName res = "pods".
Proof.
  destruct (getAPIResourceForGVK_binds_resources_only
              {| gvkGroup := ""; gvkVersion := "v1"; gvkKind := "Pod" |}
              Scenario.config [] Scenario.coreResources eq_refl eq_refl)
    as (res & Hrun & _).
  exists res. split; [exact Hrun|].
  vm_compute in Hrun. by simplify_eq.
Defined.

(** ** The [namespace] entry of the template data *)

(** Rendering reaches the engine with the data it is given and nothing else:
    two engines that parse alike and execute alike on [data] render alike. *)
Lemma KedgeGo_render_engine_ext fuel engine engine' os data :
  parse engine' = parse engine →
  (∀ text, execute engine' text data = execute engine text data) →
  ∀ file templateFile fs,
    KedgeGo.render fuel engine' os file templateFile data fs =
    KedgeGo.render fuel engine os file templateFile data fs.
Proof.
  intros Hparse Hexec.
  induction fuel as [|fuel IH]; intros file templateFile fs; simpl; [done|].
  unfold ParseFiles, Execute. rewrite Hparse.
  destruct (ReadFile fs templateFile) as [text|]; [|done].
  destruct (parse engine text); [done|].
  destruct (TempFile os fs ""); [|done].
  destruct (Stat os _ _); [|done].
  rewrite Hexec.
  destruct (bool_decide _); [|done].
  destruct (execute engine text data); [|done].
  destruct (fileContains _ _ _) as [[] []]; try done.
  by rewrite IH.
Qed.

Lemma Part000_render_engine_ext engine engine' os data file templateFile fs :
  parse engine' = parse engine →
  (∀ text, execute engine' text data = execute engine text data) →
  Part000.render engine' os file templateFile data fs =
  Part000.render engine os file templateFile data fs.
Proof.
  intros Hparse Hexec. unfold Part000.render, ParseFiles, Execute.
  rewrite Hparse.
  destruct (ReadFile fs templateFile) as [text|]; [|done].
  destruct (parse engine text); [done|].
  destruct (TempFile os fs _); [|done].
  by rewrite Hexec.
Qed.

(** C8.  When the value files merge into [merged], both copies of [Apply]
    render with [merged] in which [namespace] is bound to the argument of the
    call: the entry of the value files, if any, is gone and every other key
    is as merged; and the engine is only ever run on data whose [namespace]
    is the argument, so that engines which agree on such data give the same
    [Apply]. *)
Theorem Apply_namespace_overrides_values codec fs namespace valueFilenames merged :
  combineValues codec fs valueFilenames false = (merged, None) →
  ∃ data,
    KedgeGo.templateData codec fs namespace valueFilenames = Ok data ∧
    Part000.templateData codec fs namespace valueFilenames = Ok data ∧
    data !! "namespace" = Some (VString namespace) ∧
    (∀ k, k ≠ "namespace" → data !! k = merged !! k) ∧
    (∀ engine engine',
       parse engine' = parse engine →
       (∀ text (d : gmap string value),
          d !! "namespace" = Some (VString namespace) →
          execute engine' text d = execute engine text d) →
       ∀ fuel os config inputFilename tr,
         KedgeGo.Apply fuel codec engine' os config inputFilename namespace valueFilenames fs tr =
         KedgeGo.Apply fuel codec engine os config inputFilename namespace valueFilenames fs tr ∧
         Part000.Apply fuel codec engine' os config inputFilename namespace valueFilenames fs tr =
         Part000.Apply fuel codec engine os config inputFilename namespace valueFilenames fs tr).
Proof.
  intros Hmerged. exists (<["namespace" := VString namespace]> merged).
  assert (KedgeGo.templateData codec fs namespace valueFilenames =
          Ok (<["namespace" := VString namespace]> merged)) as HK
    by (unfold KedgeGo.templateData; by rewrite Hmerged).
  assert (Part000.templateData codec fs namespace valueFilenames =
          Ok (<["namespace" := VString namespace]> merged)) as HP
    by (unfold Part000.templateData; by rewrite Hmerged).
  split; [exact HK|]. split; [exact HP|].
  split; [apply lookup_insert_eq|].
  split; [intros k Hk; by apply lookup_insert_ne|].
  intros engine engine' Hparse Hexec fuel os config inputFilename tr.
  assert (∀ text, execute engine' text (<["namespace" := VString namespace]> merged) =
                  execute engine text (<["namespace" := VString namespace]> merged)) as Hdata
    by (intros text; apply Hexec, lookup_insert_eq).
  split.
  - unfold KedgeGo.Apply. rewrite HK.
    destruct (Stat os fs inputFilename); [|done].
    by rewrite (KedgeGo_render_engine_ext fuel engine engine' os _ Hparse Hdata).
  - unfold Part000.Apply. rewrite HP.
    destruct (Stat os fs inputFilename); [|done].
    by rewrite (Part000_render_engine_ext engine engine' os _ _ _ _ Hparse Hdata).
Qed.

Lemma Apply_namespace_overrides_values_witness :
  ∃ merged data,
    combineValues Scenario.codec Scenario.files ["base.yaml"; "prod.yaml"] false = (merged, None) ∧
    merged !! "namespace" = Some (VString "from-values") ∧
    KedgeGo.templateData Scenario.codec Scenario.files "team-a" ["base.yaml"; "prod.yaml"] = Ok data ∧
    data !! "namespace" = Some (VString "team-a").
Proof.
  eexists.
  destruct (Apply_namespace_overrides_values
              Scenario.codec Scenario.files "team-a" ["base.yaml"; "prod.yaml"] _ eq_refl)
    as (data & HK & _ & Hns & _).
  exists data. split; [reflexivity|]. split; [by vm_compute|]. split; [exact HK|exact Hns].
Defined.

Lemma combineValues_last_wins_witness :
  ∃ data,
    combineValues Scenario.codec Scenario.files ["base.yaml"; "prod.yaml"] false = (data, None) ∧
    data !! "env" = Some (VString "prod") ∧
    data !! "replicas" = Some (VNumber 1).
Proof.
  assert (Forall2 (λ file d, readValues Scenario.codec Scenario.files file = Ok d)
            ["base.yaml"; "prod.yaml"] [Scenario.valuesBase; Scenario.valuesProd]) as Hread
    by (repeat constructor).
  destruct (combineValues_last_wins Scenario.codec Scenario.files false _ _ Hread)
    as (data & Hrun & Hlast & _).
  exists data. split; [exact Hrun|]. split.
  - apply (Hlast 1 Scenario.valuesProd "env" (VString "prod")); try reflexivity.
    intros j d' Hlt Hd'. destruct j as [|[|j]]; [lia|lia|]. by destruct j.
  - apply (Hlast 0 Scenario.valuesBase "replicas" (VNumber 1)); try reflexivity.
    intros j d' Hlt Hd'. destruct j as [|[|j]]; [lia| |by destruct j].
    injection Hd' as <-. by vm_compute.
Defined.

(** ** [Apply] and its hard failures *)

(** The copy in part_000 returns an error for each failure of the three
    steps before reconciliation. *)
Theorem Part000_Apply_hard_failures fuel codec engine os config inputFilename namespace
    valueFilenames fs tr :
  (∀ data err,
     combineValues codec fs valueFilenames false = (data, Some err) →
     Part000.Apply fuel codec engine os config inputFilename namespace valueFilenames fs tr =
       Some (Some ("error reading in values data: " +:+ err), fs, tr)) ∧
  (∀ data err,
     Part000.templateData codec fs namespace valueFilenames = Ok data →
     Stat os fs inputFilename = Err err →
     Part000.Apply fuel codec engine os config inputFilename namespace valueFilenames fs tr =
       Some (Some ("could not stat file: " +:+ err), fs, tr)) ∧
  (∀ data f err fs1,
     Part000.templateData codec fs namespace valueFilenames = Ok data →
     Stat os fs inputFilename = Ok f →
     Part000.render engine os f inputFilename data fs = (Err err, fs1) →
     Part000.Apply fuel codec engine os config inputFilename namespace valueFilenames fs tr =
       Some (Some ("could not render template: " +:+ err), fs1, tr)).
Proof.
  unfold Part000.Apply, Part000.templateData. repeat split.
  - intros data err Hvalues. by rewrite Hvalues.
  - intros data err Hdata Hstat. by rewrite Hdata, Hstat.
  - intros data f err fs1 Hdata Hstat Hrender. by rewrite Hdata, Hstat, Hrender.
Qed.

(** The copy in kedge.go returns the failures of the values and of the
    stat, and returns [nil] when rendering fails. *)
Lemma KedgeGo_Apply_failures fuel codec engine os config inputFilename namespace
    valueFilenames fs tr :
  (∀ data err,
     combineValues codec fs valueFilenames false = (data, Some err) →
     KedgeGo.Apply fuel codec engine os config inputFilename namespace valueFilenames fs tr =
       Some (Some err, fs, tr)) ∧
  (∀ data err,
     KedgeGo.templateData codec fs namespace valueFilenames = Ok data →
     Stat os fs inputFilename = Err err →
     KedgeGo.Apply fuel codec engine os config inputFilename namespace valueFilenames fs tr =
       Some (Some err, fs, tr)) ∧
  (∀ data f err fs1,
     KedgeGo.templateData codec fs namespace valueFilenames = Ok data →
     Stat os fs inputFilename = Ok f →
     KedgeGo.render fuel engine os f inputFilename data fs = Some (Err err, fs1) →
     KedgeGo.Apply fuel codec engine os config inputFilename namespace valueFilenames fs tr =
       Some (None, fs1, tr)).
Proof.
  unfold KedgeGo.Apply, KedgeGo.templateData. repeat split.
  - intros data err Hvalues. by rewrite Hvalues.
  - intros data err Hdata Hstat. by rewrite Hdata, Hstat.
  - intros data f err fs1 Hdata Hstat Hrender. by rewrite Hdata, Hstat, Hrender.
Qed.

(** C1, at a template with an action left open: rendering fails, the copy in
    kedge.go returns [nil] and has sent nothing to the cluster, the copy in
    part_000 returns the failure. *)
Theorem KedgeGo_Apply_render_failure_returns_nil :
  ∃ err fs1,
    KedgeGo.render 1 Scenario.engine Scenario.os "broken.yaml" "broken.yaml"
      (<["namespace" := VString "default"]> ∅) Scenario.files = Some (Err err, fs1) ∧
    KedgeGo.Apply 1 Scenario.codec Scenario.engine Scenario.os Scenario.config
      "broken.yaml" "default" [] Scenario.files [] = Some (None, fs1, []) ∧
    Part000.Apply 1 Scenario.codec Scenario.engine Scenario.os Scenario.config
      "broken.yaml" "default" [] Scenario.files [] =
      Some (Some ("could not render template: " +:+ err), fs1, []).
Proof. eexists _, _. repeat split; vm_compute; reflexivity. Qed.

(** ** The accessors of [Unstructured] *)

Lemma nestedField_setNestedField_ne v f1 f g obj :
  f ≠ g → nestedField (setNestedField v f1 f obj) f1 g = nestedField obj f1 g.
Proof.
  intros Hne. unfold nestedField, setNestedField.
  destruct (obj !! f1) as [[| | | | |m]|] eqn:Hf1; rewrite ?Hf1; try done.
  - rewrite lookup_insert_eq. by apply lookup_insert_ne.
  - rewrite lookup_insert_eq. by apply lookup_singleton_ne.
Qed.

Lemma nestedField_RemoveNestedField_ne f1 f g obj :
  f ≠ g → nestedField (RemoveNestedField f1 f obj) f1 g = nestedField obj f1 g.
Proof.
  intros Hne. unfold nestedField, RemoveNestedField.
  destruct (obj !! f1) as [[| | | | |m]|] eqn:Hf1; rewrite ?Hf1; try done.
  rewrite lookup_insert_eq. by apply lookup_delete_ne.
Qed.

Lemma nestedField_setNestedString_ne s f1 f g obj :
  f ≠ g → nestedField (setNestedString s f1 f obj) f1 g = nestedField obj f1 g.
Proof.
  intros Hne. unfold setNestedString. case_bool_decide.
  - by apply nestedField_RemoveNestedField_ne.
  - by apply nestedField_setNestedField_ne.
Qed.

Lemma lookup_setNestedField_ne v f1 f k obj :
  k ≠ f1 → setNestedField v f1 f obj !! k = obj !! k.
Proof.
  intros Hne. unfold setNestedField.
  destruct (obj !! f1) as [[| | | | |m]|]; try done; by apply lookup_insert_ne.
Qed.

Lemma lookup_RemoveNestedField_ne f1 f k obj :
  k ≠ f1 → RemoveNestedField f1 f obj !! k = obj !! k.
Proof.
  intros Hne. unfold RemoveNestedField.
  destruct (obj !! f1) as [[| | | | |m]|]; try done; by apply lookup_insert_ne.
Qed.

Lemma lookup_setNestedString_ne s f1 f k obj :
  k ≠ f1 → setNestedString s f1 f obj !! k = obj !! k.
Proof.
  intros Hne. unfold setNestedString. case_bool_decide.
  - by apply lookup_RemoveNestedField_ne.
  - by apply lookup_setNestedField_ne.
Qed.

(** Clearing a string field: the getter then reads [""]. *)
Lemma nestedField_clear f1 f obj :
  nestedField (setNestedString "" f1 f obj) f1 f = None.
Proof.
  unfold setNestedString, nestedField, RemoveNestedField. simpl.
  destruct (obj !! f1) as [[| | | | |m]|] eqn:Hf1; rewrite ?Hf1; try done.
  rewrite lookup_insert_eq. apply lookup_delete_eq.
Qed.

(** Storing a value under a [metadata] that is a mapping or is missing. *)
Lemma nestedField_setNestedField_eq v f obj :
  metadataOk obj = true →
  nestedField (setNestedField v "metadata" f obj) "metadata" f = Some v.
Proof.
  unfold metadataOk, nestedField, setNestedField.
  destruct (obj !! "metadata") as [[| | | | |m]|] eqn:Hm; try done; intros _.
  - rewrite lookup_insert_eq. apply lookup_insert_eq.
  - rewrite lookup_insert_eq. apply lookup_singleton_eq.
Qed.

Lemma metadataOk_setNestedField v f obj :
  metadataOk (setNestedField v "metadata" f obj) = metadataOk obj.
Proof.
  unfold metadataOk, setNestedField.
  destruct (obj !! "metadata") as [[| | | | |m]|] eqn:Hm; rewrite ?Hm; try done;
    by rewrite lookup_insert_eq.
Qed.

Lemma metadataOk_setNestedString s f obj :
  metadataOk (setNestedString s "metadata" f obj) = metadataOk obj.
Proof.
  unfold setNestedString. case_bool_decide; [|apply metadataOk_setNestedField].
  unfold metadataOk, RemoveNestedField.
  destruct (obj !! "metadata") as [[| | | | |m]|] eqn:Hm; rewrite ?Hm; try done;
    by rewrite lookup_insert_eq.
Qed.

(** [SetNamespace] on a document whose [metadata] is a mapping or missing. *)
Lemma GetNamespace_SetNamespace namespace obj :
  metadataOk obj = true → GetNamespace (SetNamespace namespace obj) = namespace.
Proof.
  intros Hok. unfold GetNamespace, SetNamespace, setNestedString.
  case_bool_decide as Hempty.
  - subst. change (RemoveNestedField "metadata" "namespace" obj)
      with (setNestedString "" "metadata" "namespace" obj).
    by rewrite nestedField_clear.
  - by rewrite nestedField_setNestedField_eq.
Qed.

(** A string is none of the strings of a list of literals. *)
Ltac not_among :=
  let H := fresh in
  intros H;
  repeat (apply elem_of_cons in H as [H|H]; [discriminate H|]);
  by apply elem_of_nil in H.

(** What the four clearing calls leave in [metadata]. *)
Lemma GetOwnerReferences_cleared obj : GetOwnerReferences (SetOwnerReferences [] obj) = [].
Proof.
  unfold GetOwnerReferences, SetOwnerReferences, nestedField, setNestedField.
  destruct (obj !! "metadata") as [[| | | | |m]|] eqn:Hm; rewrite ?Hm; try done.
  - by rewrite lookup_insert_eq, lookup_insert_eq.
  - by rewrite lookup_insert_eq, lookup_singleton_eq.
Qed.

Lemma strip_cleared (first : gmap string value → gmap string value) obj :
  let sent := SetOwnerReferences [] (SetUID "" (SetResourceVersion "" (first obj))) in
  GetResourceVersion sent = "" ∧ GetUID sent = "" ∧ GetOwnerReferences sent = [].
Proof.
  simpl. split; [|split].
  - unfold GetResourceVersion, SetOwnerReferences, SetUID, SetResourceVersion.
    rewrite nestedField_setNestedField_ne, nestedField_setNestedString_ne by done.
    by rewrite nestedField_clear.
  - unfold GetUID, SetOwnerReferences, SetUID.
    rewrite nestedField_setNestedField_ne by done.
    by rewrite nestedField_clear.
  - apply GetOwnerReferences_cleared.
Qed.

(** The frame of the clearing calls: the fields outside [metadata], and the
    fields of [metadata] that are not among those written, are as before. *)
Lemma strip_frame (s1 s2 s3 f1 f2 f3 f4 : string) (refs : list value) obj :
  let sent := setNestedField (VList refs) "metadata" f4
                (setNestedString s3 "metadata" f3
                   (setNestedString s2 "metadata" f2
                      (setNestedString s1 "metadata" f1 obj))) in
  (∀ k, k ≠ "metadata" → sent !! k = obj !! k) ∧
  (∀ f, f ∉ [f1; f2; f3; f4] →
        nestedField sent "metadata" f = nestedField obj "metadata" f).
Proof.
  simpl. split.
  - intros k Hk.
    by rewrite lookup_setNestedField_ne, !lookup_setNestedString_ne.
  - intros f Hf.
    rewrite nestedField_setNestedField_ne, !nestedField_setNestedString_ne;
      [done|..]; intros ->; apply Hf; set_solver.
Qed.

(** The namespace of a document survives the clearing calls. *)
Lemma GetNamespace_strip (s1 s2 s3 f1 f2 f3 f4 : string) (refs : list value) obj :
  "namespace" ∉ [f1; f2; f3; f4] →
  GetNamespace (setNestedField (VList refs) "metadata" f4
                  (setNestedString s3 "metadata" f3
                     (setNestedString s2 "metadata" f2
                        (setNestedString s1 "metadata" f1 obj)))) = GetNamespace obj.
Proof.
  intros Hf. unfold GetNamespace.
  by rewrite (proj2 (strip_frame s1 s2 s3 f1 f2 f3 f4 refs obj) "namespace" Hf).
Qed.

(** ** The reconciler of part_000, one resource *)

Lemma Part000_createOrUpdateOne_shape codec config namespace obj tr client isNamespaced tr1 :
  gvkKind (GroupVersionKindOf obj) ≠ "List" →
  getDynamicClientOnKind (GroupVersionString (GroupVersionKindOf obj))
    (gvkKind (GroupVersionKindOf obj)) config tr = (Ok (client, isNamespaced), tr1) →
  let own := isNamespaced && bool_decide (GetNamespace obj ≠ "") in
  let target := if own then GetNamespace obj else namespace in
  let prepared :=
    if isNamespaced && negb (bool_decide (GetNamespace obj ≠ ""))
    then SetNamespace namespace obj else obj in
  let scope := if isNamespaced then Some target else None in
  let sent := SetOwnerReferences [] (SetUID "" (SetResourceVersion "" (SetSelfLink "" prepared))) in
  ∃ err rest,
    Part000.createOrUpdateOne codec config namespace obj tr =
      (err, tr1 ++ EvCreate client scope sent :: rest) ∧
    Forall (sameClient client scope) rest.
Proof.
  intros Hkind Hclient. unfold Part000.createOrUpdateOne.
  rewrite bool_decide_eq_false_2 by done. rewrite Hclient.
  destruct isNamespaced; simpl; [destruct (bool_decide (GetNamespace obj ≠ "")); simpl|].
  all: destruct (createResponse _ _ _ _ _);
    [ | destruct (Part000.makeNewPatchableData _ _) as [[b obj']|];
        [destruct (patchResponse _ _ _ _ _ _)|] | ].
  all: eexists _, _; (split; [rewrite <- ?app_assoc; reflexivity|]).
  all: repeat constructor.
Qed.

(** The copy in part_000 on a namespace-scoped resource: the create call,
    and the patch after it, go to the namespace of the document when it has
    one and to the namespace of the caller otherwise; in the first case the
    document keeps its namespace, in the second it is given the caller's. *)
Theorem Part000_prefers_document_namespace codec config namespace obj tr client tr1 :
  gvkKind (GroupVersionKindOf obj) ≠ "List" →
  getDynamicClientOnKind (GroupVersionString (GroupVersionKindOf obj))
    (gvkKind (GroupVersionKindOf obj)) config tr = (Ok (client, true), tr1) →
  metadataOk obj = true →
  let target := if bool_decide (GetNamespace obj ≠ "") then GetNamespace obj else namespace in
  ∃ err sent rest,
    Part000.createOrUpdateOne codec config namespace obj tr =
      (err, tr1 ++ EvCreate client (Some target) sent :: rest) ∧
    GetNamespace sent = target ∧
    (GetNamespace obj ≠ "" →
     nestedField sent "metadata" "namespace" = nestedField obj "metadata" "namespace") ∧
    Forall (sameClient client (Some target)) rest.
Proof.
  intros Hkind Hclient Hok target.
  destruct (Part000_createOrUpdateOne_shape codec config namespace obj tr client true tr1
              Hkind Hclient) as (err & rest & Hrun & Hrest).
  simpl in Hrun, Hrest. fold target in Hrun, Hrest.
  eexists err, _, rest. split; [exact Hrun|]. split; [|split; [|exact Hrest]].
  - unfold SetOwnerReferences, SetUID, SetResourceVersion, SetSelfLink.
    rewrite GetNamespace_strip by not_among.
    unfold target. destruct (bool_decide (GetNamespace obj ≠ "")); simpl; [done|].
    by apply GetNamespace_SetNamespace.
  - intros Hown. rewrite (bool_decide_eq_true_2 _ Hown). simpl.
    unfold SetOwnerReferences, SetUID, SetResourceVersion, SetSelfLink.
    apply strip_frame. not_among.
Qed.

Lemma Part000_prefers_document_namespace_witness :
  ∃ err sent rest,
    Part000.createOrUpdateOne Scenario.codec Scenario.config "default" Scenario.settings [] =
      (err, [EvDiscovery "v1"] ++
            EvCreate {| gvrGroup := ""; gvrVersion := "v1"; gvrResource := "configmaps" |}
              (Some "team-b") sent :: rest) ∧
    GetNamespace sent = "team-b".
Proof.
  destruct (Part000_prefers_document_namespace Scenario.codec Scenario.config "default"
              Scenario.settings []
              {| gvrGroup := ""; gvrVersion := "v1"; gvrResource := "configmaps" |}
              [EvDiscovery "v1"])
    as (err & sent & rest & Hrun & Hns & _); [by vm_compute|reflexivity|reflexivity|].
  exists err, sent, rest. split; [exact Hrun|exact Hns].
Defined.

(** The copy in part_000 clears the four fields that the server manages
    before the create call, and changes nothing else: the object it sends is
    the document, with the namespace of the caller when it was given one,
    whose self-link, resource version and UID read empty and whose owner
    references are none, every other field being the same. *)
Theorem Part000_strips_server_fields codec config namespace obj tr client isNamespaced tr1 :
  gvkKind (GroupVersionKindOf obj) ≠ "List" →
  getDynamicClientOnKind (GroupVersionString (GroupVersionKindOf obj))
    (gvkKind (GroupVersionKindOf obj)) config tr = (Ok (client, isNamespaced), tr1) →
  ∃ err scope prepared sent rest,
    Part000.createOrUpdateOne codec config namespace obj tr =
      (err, tr1 ++ EvCreate client scope sent :: rest) ∧
    Forall (sameClient client scope) rest ∧
    (prepared = obj ∨ prepared = SetNamespace namespace obj) ∧
    GetSelfLink sent = "" ∧ GetResourceVersion sent = "" ∧ GetUID sent = "" ∧
    GetOwnerReferences sent = [] ∧
    (∀ k, k ≠ "metadata" → sent !! k = prepared !! k) ∧
    (∀ f, f ∉ serverManaged →
          nestedField sent "metadata" f = nestedField prepared "metadata" f).
Proof.
  intros Hkind Hclient.
  pose proof (Part000_createOrUpdateOne_shape codec config namespace obj tr client isNamespaced
                tr1 Hkind Hclient) as Hshape.
  cbv zeta in Hshape. destruct Hshape as (err & rest & Hrun & Hrest).
  set (prepared := if isNamespaced && negb (bool_decide (GetNamespace obj ≠ ""))
                   then SetNamespace namespace obj else obj) in *.
  eexists err, _, prepared, _, rest. split; [exact Hrun|]. split; [exact Hrest|].
  split; [unfold prepared; destruct (_ && negb _); [by right|by left]|].
  split.
  { unfold GetSelfLink, SetOwnerReferences, SetUID, SetResourceVersion, SetSelfLink.
    rewrite nestedField_setNestedField_ne, !nestedField_setNestedString_ne by done.
    by rewrite nestedField_clear. }
  split; [apply (strip_cleared (SetSelfLink ""))|].
  split; [apply (strip_cleared (SetSelfLink ""))|].
  split; [apply (strip_cleared (SetSelfLink ""))|].
  unfold SetOwnerReferences, SetUID, SetResourceVersion, SetSelfLink, serverManaged.
  apply strip_frame.
Qed.

Lemma Part000_strips_server_fields_witness :
  ∃ err scope sent rest,
    Part000.createOrUpdateOne Scenario.codec Scenario.config "default" Scenario.settings [] =
      (err, [EvDiscovery "v1"] ++
            EvCreate {| gvrGroup := ""; gvrVersion := "v1"; gvrResource := "configmaps" |}
              scope sent :: rest) ∧
    GetSelfLink sent = "" ∧ GetUID sent = "" ∧
    sent !! "data" = Scenario.settings !! "data".
Proof.
  destruct (Part000_strips_server_fields Scenario.codec Scenario.config "default"
              Scenario.settings []
              {| gvrGroup := ""; gvrVersion := "v1"; gvrResource := "configmaps" |}
              true [EvDiscovery "v1"])
    as (err & scope & prepared & sent & rest & Hrun & _ & Hprep & Hlink & _ & Huid & _ & Htop & _);
    [by vm_compute|reflexivity|].
  exists err, scope, sent, rest. split; [exact Hrun|]. split; [exact Hlink|].
  split; [exact Huid|].
  rewrite Htop by done. destruct Hprep as [->| ->]; [done|].
  by apply lookup_setNestedString_ne.
Defined.

(** C3, at a ConfigMap that names its namespace [team-b], applied with the
    namespace [default]: the copy in kedge.go creates it in [default] and
    overwrites the namespace of the document; the copy in part_000 creates it
    in [team-b]. *)
Theorem KedgeGo_overrides_document_namespace :
  GetNamespace Scenario.settings = "team-b" ∧
  (∃ sent rest,
     KedgeGo.createOrUpdateResource 1 Scenario.codec "settings.yaml" "default"
       Scenario.config [] =
       Some (EvDiscovery "v1" ::
             EvCreate {| gvrGroup := ""; gvrVersion := "v1"; gvrResource := "configmaps" |}
               (Some "default") sent :: rest) ∧
     GetNamespace sent = "default") ∧
  (∃ err sent rest,
     Part000.createOrUpdateResource 1 Scenario.codec "settings.yaml" "default"
       Scenario.config [] =
       Some (err, EvDiscovery "v1" ::
                  EvCreate {| gvrGroup := ""; gvrVersion := "v1"; gvrResource := "configmaps" |}
                    (Some "team-b") sent :: rest) ∧
     GetNamespace sent = "team-b").
Proof.
  split; [reflexivity|]. split.
  - eexists _, _. split; [vm_compute; reflexivity|reflexivity].
  - eexists _, _, _. split; [vm_compute; reflexivity|reflexivity].
Qed.

(** C7, at the same ConfigMap, which carries a self-link: the object that the
    copy in kedge.go sends still carries it, and its namespace is no longer
    the document's; the resource version, the UID and the owner references
    are cleared.  The copy in part_000 clears the self-link too. *)
Theorem KedgeGo_keeps_self_link :
  (∃ sent rest,
     KedgeGo.createOrUpdateResource 1 Scenario.codec "settings.yaml" "default"
       Scenario.config [] =
       Some (EvDiscovery "v1" ::
             EvCreate {| gvrGroup := ""; gvrVersion := "v1"; gvrResource := "configmaps" |}
               (Some "default") sent :: rest) ∧
     GetSelfLink sent = "/api/v1/namespaces/team-b/configmaps/settings" ∧
     GetResourceVersion sent = "" ∧ GetUID sent = "" ∧ GetOwnerReferences sent = [] ∧
     nestedField sent "metadata" "namespace" ≠
       nestedField Scenario.settings "metadata" "namespace") ∧
  (∃ err sent rest,
     Part000.createOrUpdateResource 1 Scenario.codec "settings.yaml" "default"
       Scenario.config [] =
       Some (err, EvDiscovery "v1" ::
                  EvCreate {| gvrGroup := ""; gvrVersion := "v1"; gvrResource := "configmaps" |}
                    (Some "team-b") sent :: rest) ∧
     GetSelfLink sent = "").
Proof.
  split.
  - eexists _, _. split; [vm_compute; reflexivity|]. by repeat split.
  - eexists _, _, _. split; [vm_compute; reflexivity|reflexivity].
Qed.

(** ** Documents of kind [List] without items *)

(** The copy in part_000 drops a document whose kind is [List] and that has
    no item, be it that its [items] are an empty sequence or that it has no
    sequence of [items] at all: nothing is logged, nothing is sent, and the
    error is [nil]. *)
Theorem Part000_drops_empty_List fuel codec b namespace config tr obj :
  yamlUnmarshalObject codec b = Ok obj →
  gvkKind (GroupVersionKindOf obj) = "List" →
  listItems obj = [] →
  Part000.createOrUpdateResource (S fuel) codec b namespace config tr = Some (None, tr).
Proof.
  intros Hdecode Hkind Hitems. simpl. rewrite Hdecode.
  unfold IsList, EachListItem, listItems in *.
  destruct (obj !! "items") as [[| | | |items|]|]; simplify_eq; simpl;
    try (unfold Part000.createOrUpdateOne; by rewrite bool_decide_eq_true_2).
  reflexivity.
Qed.

Lemma Part000_drops_empty_List_witness :
  Part000.createOrUpdateResource 1 Scenario.codec "bare-list.yaml" "default" Scenario.config [] =
    Some (None, []) ∧
  Part000.createOrUpdateResource 1 Scenario.codec "empty-list.yaml" "default" Scenario.config [] =
    Some (None, []).
Proof.
  split.
  - apply (Part000_drops_empty_List 0 Scenario.codec "bare-list.yaml" "default" Scenario.config
             [] Scenario.bareList); reflexivity.
  - apply (Part000_drops_empty_List 0 Scenario.codec "empty-list.yaml" "default" Scenario.config
             [] Scenario.emptyList); reflexivity.
Defined.

(** C9, in the copy of kedge.go.  A [List] whose [items] are an empty
    sequence leaves no trace; a [List] without [items] is taken for a
    resource: its kind is looked up, no entry of the catalog has it, and a
    create call is sent to the zero resource, whose failure is logged. *)
Theorem KedgeGo_creates_bare_List :
  gvkKind (GroupVersionKindOf Scenario.bareList) = "List" ∧
  listItems Scenario.bareList = [] ∧
  KedgeGo.createOrUpdateResource 1 Scenario.codec "empty-list.yaml" "default" Scenario.config [] =
    Some [] ∧
  ∃ sent,
    KedgeGo.createOrUpdateResource 1 Scenario.codec "bare-list.yaml" "default" Scenario.config [] =
      Some [ EvDiscovery "v1";
             EvCreate {| gvrGroup := ""; gvrVersion := ""; gvrResource := "" |} None sent;
             EvLog "ERROR: could not create List 'default/': the server could not find the requested resource" ].
Proof.
  split; [reflexivity|]. split; [reflexivity|]. split; [reflexivity|].
  eexists. vm_compute. reflexivity.
Qed.

(** ** Lists of resources *)

Lemma KedgeGo_eachItem_runAll codec namespace config fuel children texts tr :
  Forall2 (λ child text, jsonMarshal codec child = Ok text) children texts →
  match eachItem
          (λ item tr,
             match jsonMarshal codec item with
             | Err err => Some (Some err, tr)
             | Ok b =>
                 match KedgeGo.createOrUpdateResource fuel codec b namespace config tr with
                 | None => None
                 | Some tr1 => Some (None, tr1)
                 end
             end) (VMap <$> children) tr with
  | None => None
  | Some (_, tr1) => Some tr1
  end = runAll (λ b, KedgeGo.createOrUpdateResource fuel codec b namespace config) texts tr.
Proof.
  intros Hmarshal. revert tr.
  induction Hmarshal as [|child text children texts Hchild _ IH]; intros tr; simpl; [done|].
  rewrite Hchild.
  destruct (KedgeGo.createOrUpdateResource fuel codec text namespace config tr); [|done].
  apply IH.
Qed.

Lemma Part000_eachItem_runUntilError codec namespace config fuel children texts tr :
  Forall2 (λ child text, jsonMarshal codec child = Ok text) children texts →
  eachItem
    (λ item tr,
       match jsonMarshal codec item with
       | Err err => Some (Some err, tr)
       | Ok b => Part000.createOrUpdateResource fuel codec b namespace config tr
       end) (VMap <$> children) tr =
  runUntilError (λ b, Part000.createOrUpdateResource fuel codec b namespace config) texts tr.
Proof.
  intros Hmarshal. revert tr.
  induction Hmarshal as [|child text children texts Hchild _ IH]; intros tr; simpl; [done|].
  rewrite Hchild.
  destruct (Part000.createOrUpdateResource fuel codec text namespace config tr)
    as [[[err|] tr1]|]; [reflexivity|apply IH|reflexivity].
Qed.

(** C2, as the code has it.  For a document whose [items] are resources, the
    copy in kedge.go runs on every item in turn, whatever the earlier runs
    did; the copy in part_000 runs on the items in turn up to the first run
    that returns an error, and returns that error. *)
Theorem list_items_are_reconciled_in_order fuel codec b namespace config tr obj children texts :
  yamlUnmarshalObject codec b = Ok obj →
  obj !! "items" = Some (VList (VMap <$> children)) →
  Forall2 (λ child text, jsonMarshal codec child = Ok text) children texts →
  KedgeGo.createOrUpdateResource (S fuel) codec b namespace config tr =
    runAll (λ text, KedgeGo.createOrUpdateResource fuel codec text namespace config) texts tr ∧
  Part000.createOrUpdateResource (S fuel) codec b namespace config tr =
    runUntilError (λ text, Part000.createOrUpdateResource fuel codec text namespace config)
      texts tr.
Proof.
  intros Hdecode Hitems Hmarshal. split; simpl; rewrite Hdecode;
    unfold IsList, EachListItem; rewrite Hitems.
  - by apply KedgeGo_eachItem_runAll.
  - rewrite (Part000_eachItem_runUntilError _ _ _ _ _ _ _ Hmarshal).
    by destruct (runUntilError _ _ _) as [[[err|] tr1]|].
Qed.

Lemma list_items_are_reconciled_in_order_witness :
  ∃ trK errP trP,
    KedgeGo.createOrUpdateResource 2 Scenario.codec "pair.yaml" "default" Scenario.config [] =
      Some trK ∧
    Scenario.created trK = ["first"; "second"] ∧
    Part000.createOrUpdateResource 2 Scenario.codec "pair.yaml" "default" Scenario.config [] =
      Some (Some errP, trP) ∧
    Scenario.created trP = ["first"].
Proof.
  destruct (list_items_are_reconciled_in_order 1 Scenario.codec "pair.yaml" "default"
              Scenario.config [] Scenario.pair [Scenario.first; Scenario.second]
              ["first.json"; "second.json"])
    as [HK HP]; [reflexivity|reflexivity|by repeat constructor|].
  eexists _, _, _. rewrite HK, HP.
  split; [vm_compute; reflexivity|]. split; [reflexivity|].
  split; [vm_compute; reflexivity|reflexivity].
Defined.

(** The claim C2 fails in the copy of part_000: the first of two ConfigMaps
    is refused by the cluster, the error is returned, and the second one is
    never sent. *)
Lemma Part000_list_stops_at_first_failure :
  listItems Scenario.pair = [VMap Scenario.first; VMap Scenario.second] ∧
  ∃ err tr,
    Part000.createOrUpdateResource 2 Scenario.codec "pair.yaml" "default" Scenario.config [] =
      Some (Some err, tr) ∧
    Scenario.created tr = ["first"] ∧
    "second" ∉ Scenario.created tr.
Proof.
  split; [reflexivity|]. eexists _, _.
  split; [vm_compute; reflexivity|]. split; [reflexivity|].
  vm_compute. intros Hin. apply list_elem_of_In in Hin. simpl in Hin.
  destruct Hin as [Hin|[]]. discriminate Hin.
Qed.

(** ** Rendering *)

(** C5, at a template whose value [greeting] is itself a piece of template:
    the copy in part_000 renders once and returns a text that still holds
    the marker; the copy in kedge.go needs exactly two passes (one is not
    enough) and returns the text with both values filled in. *)
Theorem Part000_render_is_one_pass :
  (∃ fs1,
     Part000.render Scenario.engine Scenario.os "nested.yaml" "nested.yaml"
       Scenario.nestedValues Scenario.files = (Ok "name: hello {{ .who }}", fs1)) ∧
  contains "name: hello {{ .who }}" "{{" = true ∧
  KedgeGo.render 1 Scenario.engine Scenario.os "nested.yaml" "nested.yaml"
    Scenario.nestedValues Scenario.files = None ∧
  (∃ fs1,
     KedgeGo.render 2 Scenario.engine Scenario.os "nested.yaml" "nested.yaml"
       Scenario.nestedValues Scenario.files = Some (Ok "name: hello world", fs1)).
Proof.
  split; [eexists; vm_compute; reflexivity|].
  split; [reflexivity|].
  split; [vm_compute; reflexivity|].
  eexists; vm_compute; reflexivity.
Qed.

(** ** The line scanner of [fileContains] *)

Lemma splitOn_cons sep s : ∃ f fs, splitOn sep s = f :: fs.
Proof.
  induction s as [|c s IH]; simpl; [by eexists _, _|].
  destruct (Ascii.eqb c sep); [by eexists _, _|].
  destruct IH as (f & fs & ->). by eexists _, _.
Qed.

Lemma hasByte_head c a rest : hasByte c (String a rest) = false → a ≠ c ∧ hasByte c rest = false.
Proof.
  simpl. intros [Ha Hrest]%orb_false_elim. split; [|done].
  by apply Ascii.eqb_neq.
Qed.

Lemma prefix_nil s : String.prefix "" s = true.
Proof. by destruct s. Qed.

(** A text without newline is at the start of a text when it is at the start
    of its first line. *)
Lemma prefix_first_field sub :
  hasByte newline sub = false →
  ∀ s, String.prefix sub s = String.prefix sub (default "" (head (splitOn newline s))).
Proof.
  induction sub as [|a sub IH]; intros Hsub s; [by rewrite !prefix_nil|].
  apply hasByte_head in Hsub as [Ha Hsub].
  destruct s as [|c s]; [done|]. simpl.
  destruct (Ascii.eqb c newline) eqn:Hc.
  - apply Ascii.eqb_eq in Hc as ->. simpl. by destruct (Ascii.ascii_dec a newline).
  - destruct (splitOn_cons newline s) as (f & fs & Hsplit). rewrite Hsplit. simpl.
    destruct (Ascii.ascii_dec a c); [|done].
    rewrite (IH Hsub s), Hsplit. done.
Qed.

Lemma prefix_nonempty_nil sub : sub ≠ "" → String.prefix sub "" = false.
Proof. by destruct sub. Qed.

(** Searching a text is searching its lines, for a text without newline. *)
Lemma contains_fields sub s :
  sub ≠ "" → hasByte newline sub = false →
  contains s sub = existsb (λ line, contains line sub) (splitOn newline s).
Proof.
  intros Hne Hsub. induction s as [|c s IH].
  - simpl. by rewrite !orb_false_r.
  - change (contains (String c s) sub) with (String.prefix sub (String c s) || contains s sub).
    rewrite (prefix_first_field sub Hsub (String c s)).
    change (splitOn newline (String c s))
      with (if Ascii.eqb c newline then "" :: splitOn newline s
            else match splitOn newline s with
                 | [] => [String c ""]
                 | f :: fs => String c f :: fs
                 end).
    destruct (Ascii.eqb c newline).
    + cbn [head default from_option existsb]. unfold id.
      change (contains "" sub) with (String.prefix sub "" || false).
      rewrite !(prefix_nonempty_nil sub Hne). exact IH.
    + destruct (splitOn_cons newline s) as (f & fs & Hsplit).
      rewrite Hsplit in *. cbn [head default from_option existsb] in *. unfold id.
      change (contains (String c f) sub) with (String.prefix sub (String c f) || contains f sub).
      rewrite IH. by rewrite orb_assoc.
Qed.

Lemma existsb_scanLines sub s :
  sub ≠ "" →
  existsb (λ line, contains line sub) (scanLines s) =
  existsb (λ line, contains line sub) (splitOn newline s).
Proof.
  intros Hne. unfold scanLines.
  destruct (last (splitOn newline s)) as [[|c x]|] eqn:Hlast; [|done|done].
  apply last_Some in Hlast as [fields ->].
  rewrite List.removelast_last, existsb_app. cbn [existsb].
  change (contains "" sub) with (String.prefix sub "" || false).
  by rewrite (prefix_nonempty_nil sub Hne), !orb_false_r.
Qed.

(** Dropping the carriage return of a line changes nothing for a text
    without carriage return. *)
Lemma prefix_dropCR line :
  ∀ sub, hasByte carriageReturn sub = false →
         String.prefix sub (dropCR line) = String.prefix sub line.
Proof.
  induction line as [|c rest IH]; intros sub Hsub; [done|].
  destruct rest as [|c' rest].
  - simpl. destruct (Ascii.eqb c carriageReturn) eqn:Hc; [|done].
    apply Ascii.eqb_eq in Hc as ->.
    destruct sub as [|a sub]; [by rewrite !prefix_nil|].
    apply hasByte_head in Hsub as [Ha _]. simpl.
    by destruct (Ascii.ascii_dec a carriageReturn).
  - change (dropCR (String c (String c' rest))) with (String c (dropCR (String c' rest))).
    destruct sub as [|a sub]; [by rewrite !prefix_nil|].
    apply hasByte_head in Hsub as [_ Hsub]. simpl.
    destruct (Ascii.ascii_dec a c); [|done]. exact (IH sub Hsub).
Qed.

Lemma contains_dropCR sub line :
  hasByte carriageReturn sub = false → contains (dropCR line) sub = contains line sub.
Proof.
  intros Hsub. induction line as [|c rest IH]; [done|].
  change (contains (String c rest) sub)
    with (String.prefix sub (String c rest) || contains rest sub).
  rewrite <- (prefix_dropCR (String c rest) sub Hsub).
  destruct rest as [|c' rest].
  - simpl. destruct (Ascii.eqb c carriageReturn); simpl.
    + by rewrite orb_false_r, orb_diag.
    + done.
  - change (dropCR (String c (String c' rest))) with (String c (dropCR (String c' rest))).
    change (contains (String c (dropCR (String c' rest))) sub)
      with (String.prefix sub (String c (dropCR (String c' rest))) ||
            contains (dropCR (String c' rest)) sub).
    by rewrite IH.
Qed.

Lemma scanFor_fits sub lines :
  hasByte carriageReturn sub = false →
  forallb (λ line, (N.of_nat (String.length line) <? MaxScanTokenSize)%N) lines = true →
  scanFor sub lines = (existsb (λ line, contains line sub) lines, None).
Proof.
  intros Hsub. induction lines as [|line lines IH]; simpl; [done|].
  intros [Hline Hlines]%andb_prop.
  apply N.ltb_lt in Hline.
  destruct (MaxScanTokenSize <=? N.of_nat (String.length line))%N eqn:Hlong;
    [apply N.leb_le in Hlong; lia|].
  rewrite (contains_dropCR sub line Hsub).
  destruct (contains line sub); [done|]. by apply IH.
Qed.

Lemma fileContains_fits fs path content sub :
  fs !! path = Some content →
  fitsScanner content = true →
  sub ≠ "" → hasByte newline sub = false → hasByte carriageReturn sub = false →
  fileContains fs path sub = (contains content sub, None).
Proof.
  intros Hfile Hfit Hne Hnl Hcr. unfold fileContains. rewrite Hfile.
  rewrite (scanFor_fits sub _ Hcr Hfit).
  by rewrite (existsb_scanLines sub content Hne), <- (contains_fields sub content Hne Hnl).
Qed.

(** [fileContains] reads line by line, and yet finds what a search of the
    whole text finds: for a file whose lines all fit the scanner and a text
    to look for that is not empty and has neither newline nor carriage
    return, the result is [strings.Contains] of the content, with no error. *)
Theorem fileContains_searches_whole_text fs path content sub :
  fs !! path = Some content →
  fitsScanner content = true →
  sub ≠ "" → hasByte newline sub = false → hasByte carriageReturn sub = false →
  fileContains fs path sub = (contains content sub, None).
Proof. apply fileContains_fits. Qed.

Lemma fileContains_searches_whole_text_witness :
  fileContains Scenario.files "nested.yaml" "{{" = (true, None) ∧
  fileContains Scenario.files "base.yaml" "{{" = (false, None).
Proof.
  split.
  - apply (fileContains_searches_whole_text Scenario.files "nested.yaml"
             "name: {{ .greeting }}" "{{"); done.
  - apply (fileContains_searches_whole_text Scenario.files "base.yaml" "env: dev" "{{"); done.
Defined.

(** A line of 64 KiB or more stops the scanner: when no earlier line holds
    the text looked for, [fileContains] returns [false] with the scanner's
    error, whatever the lines after it hold. *)
Theorem fileContains_line_too_long fs path content sub before long after :
  fs !! path = Some content →
  scanLines content = before ++ long :: after →
  Forall (λ line, (N.of_nat (String.length line) < MaxScanTokenSize)%N ∧
                  contains (dropCR line) sub = false) before →
  (MaxScanTokenSize ≤ N.of_nat (String.length long))%N →
  fileContains fs path sub = (false, Some "bufio.Scanner: token too long").
Proof.
  intros Hfile Hlines Hbefore Hlong. unfold fileContains. rewrite Hfile, Hlines.
  clear Hfile Hlines. induction Hbefore as [|line before [Hfit Hmiss] _ IH]; simpl.
  - by rewrite (proj2 (N.leb_le _ _) Hlong).
  - destruct (MaxScanTokenSize <=? N.of_nat (String.length line))%N eqn:Hline;
      [apply N.leb_le in Hline; lia|].
    by rewrite Hmiss.
Qed.

(** ** [render] in kedge.go *)

Lemma Stat_file os (fs : FS) name content :
  fs !! name = Some content → Stat os fs name = Ok (basename name).
Proof. intros Hfile. unfold Stat. by rewrite Hfile. Qed.

Lemma KedgeGo_render_step fuel engine os file templateFile data fs text tmp out :
  ParseFiles engine fs file templateFile = Ok text →
  TempFile os fs "" = Ok tmp →
  Execute engine file templateFile text data = Ok out →
  fitsScanner out = true →
  KedgeGo.render (S fuel) engine os file templateFile data fs =
    if contains out "{{"
    then match KedgeGo.render fuel engine os (basename tmp) tmp data
                 (<[tmp := out]> (<[tmp := ""]> fs)) with
         | None => None
         | Some (b, fs3) => Some (b, delete tmp fs3)
         end
    else Some (Ok out, delete tmp (<[tmp := out]> (<[tmp := ""]> fs))).
Proof.
  intros Hparse Htmp Hexec Hfit. simpl. rewrite Hparse, Htmp.
  rewrite (Stat_file os _ tmp "") by apply lookup_insert_eq.
  rewrite Hexec.
  rewrite (fileContains_fits _ tmp out "{{") by (done || apply lookup_insert_eq).
  destruct (contains out "{{"); [done|].
  unfold ReadFile. by rewrite lookup_insert_eq.
Qed.

(** In kedge.go, when a pass succeeds and its output, whose lines fit the
    scanner, still holds the marker, [render] is what rendering the
    temporary file that holds the output gives (the temporary file being
    removed afterwards); when the output does not hold the marker, it is
    returned as it is. *)
Theorem KedgeGo_render_second_pass fuel engine os file templateFile data fs text tmp out :
  ParseFiles engine fs file templateFile = Ok text →
  TempFile os fs "" = Ok tmp →
  Execute engine file templateFile text data = Ok out →
  fitsScanner out = true →
  KedgeGo.render (S fuel) engine os file templateFile data fs =
    if contains out "{{"
    then match KedgeGo.render fuel engine os (basename tmp) tmp data
                 (<[tmp := out]> (<[tmp := ""]> fs)) with
         | None => None
         | Some (b, fs3) => Some (b, delete tmp fs3)
         end
    else Some (Ok out, delete tmp (<[tmp := out]> (<[tmp := ""]> fs))).
Proof. apply KedgeGo_render_step. Qed.

Lemma KedgeGo_render_second_pass_witness :
  ∃ fs1,
    KedgeGo.render 2 Scenario.engine Scenario.os "nested.yaml" "nested.yaml"
      Scenario.nestedValues Scenario.files = Some (Ok "name: hello world", fs1).
Proof.
  eexists.
  rewrite (KedgeGo_render_second_pass 1 Scenario.engine Scenario.os "nested.yaml" "nested.yaml"
             Scenario.nestedValues Scenario.files "name: {{ .greeting }}" "/tmp/tmp_4"
             "name: hello {{ .who }}"); [|by vm_compute..].
  vm_compute. reflexivity.
Defined.

Lemma splitOn_line line rest :
  hasByte newline line = false →
  splitOn newline (line +:+ String newline rest) = line :: splitOn newline rest.
Proof.
  induction line as [|c line IH]; intros Hline; simpl.
  - done.
  - apply hasByte_head in Hline as [Hc Hline].
    apply Ascii.eqb_neq in Hc. rewrite Hc. by rewrite (IH Hline).
Qed.

Lemma hasByte_repeatByte n c a : a ≠ c → hasByte c (Cases.repeatByte n a) = false.
Proof.
  intros Hne. induction n as [|n IH]; simpl; [done|].
  rewrite IH. by rewrite (proj2 (Ascii.eqb_neq a c) Hne).
Qed.

Lemma length_repeatByte n c : String.length (Cases.repeatByte n c) = n.
Proof. induction n as [|n IH]; simpl; [done|]. by rewrite IH. Qed.

Lemma fileContains_line_too_long_witness :
  fileContains {[ "long.yaml" := Cases.longFirstLine ]} "long.yaml" "{{" =
    (false, Some "bufio.Scanner: token too long").
Proof.
  apply (fileContains_line_too_long _ "long.yaml" Cases.longFirstLine "{{" []
           (Cases.repeatByte (2 ^ 16) (Ascii.ascii_of_nat 97)) ["{{ .env }}"]).
  - apply lookup_singleton_eq.
  - unfold scanLines, Cases.longFirstLine.
    by rewrite splitOn_line by (by apply hasByte_repeatByte).
  - constructor.
  - rewrite length_repeatByte. by vm_compute.
Defined.

(** Two passes: when the output of the first pass holds the marker and the
    output of the second does not, one pass is not enough, and with two or
    more [render] returns the output of the second pass. *)
Theorem KedgeGo_render_two_passes engine os file templateFile data fs text tmp out tmp2 out2 :
  ParseFiles engine fs file templateFile = Ok text →
  TempFile os fs "" = Ok tmp →
  Execute engine file templateFile text data = Ok out →
  fitsScanner out = true → contains out "{{" = true →
  parse engine out = None →
  TempFile os (<[tmp := out]> (<[tmp := ""]> fs)) "" = Ok tmp2 →
  execute engine out data = Ok out2 →
  fitsScanner out2 = true → contains out2 "{{" = false →
  KedgeGo.render 1 engine os file templateFile data fs = None ∧
  ∀ fuel, ∃ fs1,
    KedgeGo.render (S (S fuel)) engine os file templateFile data fs = Some (Ok out2, fs1).
Proof.
  intros Hparse Htmp Hexec Hfit Hmarker Hparse2 Htmp2 Hexec2 Hfit2 Hclean. split.
  - rewrite (KedgeGo_render_step 0 _ _ _ _ _ _ _ _ _ Hparse Htmp Hexec Hfit).
    by rewrite Hmarker.
  - intros fuel.
    rewrite (KedgeGo_render_step (S fuel) _ _ _ _ _ _ _ _ _ Hparse Htmp Hexec Hfit).
    rewrite Hmarker.
    assert (ParseFiles engine (<[tmp := out]> (<[tmp := ""]> fs)) (basename tmp) tmp = Ok out)
      as Hparse' by (unfold ParseFiles, ReadFile; by rewrite lookup_insert_eq, Hparse2).
    assert (Execute engine (basename tmp) tmp out data = Ok out2)
      as Hexec' by (unfold Execute; by rewrite bool_decide_eq_true_2).
    rewrite (KedgeGo_render_step fuel _ _ _ _ _ _ _ _ _ Hparse' Htmp2 Hexec' Hfit2).
    rewrite Hclean. eexists. reflexivity.
Qed.

Lemma KedgeGo_render_two_passes_witness :
  KedgeGo.render 1 Scenario.engine Scenario.os "nested.yaml" "nested.yaml"
    Scenario.nestedValues Scenario.files = None ∧
  ∃ fs1,
    KedgeGo.render 5 Scenario.engine Scenario.os "nested.yaml" "nested.yaml"
      Scenario.nestedValues Scenario.files = Some (Ok "name: hello world", fs1).
Proof.
  destruct (KedgeGo_render_two_passes Scenario.engine Scenario.os "nested.yaml" "nested.yaml"
              Scenario.nestedValues Scenario.files "name: {{ .greeting }}" "/tmp/tmp_4"
              "name: hello {{ .who }}" "/tmp/tmp_5" "name: hello world")
    as [Hone Hmore]; [by vm_compute..|].
  split; [exact Hone|exact (Hmore 3)].
Defined.

(** Temporary files leave no trace: when [ioutil.TempFile] only returns
    paths that did not exist, the files are after [render], in either copy
    and on every way out, what they were before. *)
Theorem render_restores_files engine os data :
  (∀ (fs : FS) dir tmp, TempFile os fs dir = Ok tmp → fs !! tmp = None) →
  (∀ fuel file templateFile fs b fs1,
     KedgeGo.render fuel engine os file templateFile data fs = Some (b, fs1) → fs1 = fs) ∧
  (∀ file templateFile fs,
     snd (Part000.render engine os file templateFile data fs) = fs).
Proof.
  intros Hfresh.
  assert (∀ (fs : FS) tmp x y, fs !! tmp = None →
            delete tmp (<[tmp := x]> (<[tmp := y]> fs)) = fs) as Hback
    by (intros fs tmp x y Hnone; by rewrite insert_insert_eq, delete_insert_id).
  split.
  - induction fuel as [|fuel IH]; intros file templateFile fs b fs1; simpl; [done|].
    destruct (ParseFiles engine fs file templateFile); [|by intros [= _ <-]].
    destruct (TempFile os fs "") as [tmp|] eqn:Htmp; [|by intros [= _ <-]].
    apply Hfresh in Htmp.
    destruct (Stat os _ tmp); [|intros [= _ <-]; by apply delete_insert_id].
    destruct (Execute engine file templateFile _ data);
      [|intros [= _ <-]; by apply delete_insert_id].
    destruct (fileContains _ tmp "{{") as [[] []];
      try (intros [= _ <-]; by apply Hback).
    destruct (KedgeGo.render fuel engine os _ tmp data _) as [[b' fs3]|] eqn:Hrec; [|done].
    apply IH in Hrec as ->. intros [= _ <-]. by apply Hback.
  - intros file templateFile fs. unfold Part000.render.
    destruct (ParseFiles engine fs file templateFile); [|done].
    destruct (TempFile os fs _) as [tmp|] eqn:Htmp; [|done].
    apply Hfresh in Htmp.
    destruct (Execute engine file templateFile _ data); simpl.
    + by apply Hback.
    + by apply delete_insert_id.
Qed.

Lemma render_restores_files_witness :
  snd (Part000.render Scenario.engine Cases.os "nested.yaml" "nested.yaml"
         Scenario.nestedValues Scenario.files) = Scenario.files ∧
  ∀ b fs1,
    KedgeGo.render 2 Scenario.engine Cases.os "nested.yaml" "nested.yaml"
      Scenario.nestedValues Scenario.files = Some (b, fs1) → fs1 = Scenario.files.
Proof.
  destruct (render_restores_files Scenario.engine Cases.os Scenario.nestedValues) as [HK HP].
  { intros fs dir tmp [= <-]. apply fresh_string_fresh. }
  split; [apply HP|]. intros b fs1. apply HK.
Defined.

(** A template whose output is the template itself and holds the marker is
    rendered for ever: whatever the number of passes allowed, [render] in
    kedge.go does not return. *)
Theorem KedgeGo_render_never_returns engine os data text :
  (∀ fs : FS, ∃ tmp, TempFile os fs "" = Ok tmp) →
  parse engine text = None →
  execute engine text data = Ok text →
  fitsScanner text = true → contains text "{{" = true →
  ∀ fuel templateFile (fs : FS),
    fs !! templateFile = Some text →
    KedgeGo.render fuel engine os (basename templateFile) templateFile data fs = None.
Proof.
  intros Htmp Hparse Hexec Hfit Hmarker.
  induction fuel as [|fuel IH]; intros templateFile fs Hfile; [done|].
  destruct (Htmp fs) as [tmp Htmp'].
  assert (ParseFiles engine fs (basename templateFile) templateFile = Ok text) as Hparse'
    by (unfold ParseFiles, ReadFile; by rewrite Hfile, Hparse).
  assert (Execute engine (basename templateFile) templateFile text data = Ok text) as Hexec'
    by (unfold Execute; by rewrite bool_decide_eq_true_2).
  rewrite (KedgeGo_render_step fuel _ _ _ _ _ _ _ _ _ Hparse' Htmp' Hexec' Hfit), Hmarker.
  rewrite IH; [done|apply lookup_insert_eq].
Qed.

Lemma KedgeGo_render_never_returns_witness :
  KedgeGo.render 1000 Scenario.engine Cases.os "loop.yaml" "loop.yaml"
    Cases.loopValues Cases.loopFiles = None.
Proof.
  assert (∀ fs : FS, ∃ tmp, TempFile Cases.os fs "" = Ok tmp) as Htmp
    by (intros fs; by eexists).
  exact (KedgeGo_render_never_returns Scenario.engine Cases.os Cases.loopValues
           "{{ .again }}" Htmp eq_refl eq_refl eq_refl eq_refl
           1000 "loop.yaml" Cases.loopFiles eq_refl).
Defined.

(** ** [Apply] in kedge.go once the values and the template file are there *)

(** In kedge.go, once the value files have merged and the template file has
    been found, [Apply] returns [nil]: no failure of rendering, decoding,
    discovery, create or patch reaches the caller. *)
Theorem KedgeGo_Apply_nil_after_stat fuel codec engine os config inputFilename namespace
    valueFilenames fs tr data f err fs1 tr1 :
  KedgeGo.templateData codec fs namespace valueFilenames = Ok data →
  Stat os fs inputFilename = Ok f →
  KedgeGo.Apply fuel codec engine os config inputFilename namespace valueFilenames fs tr =
    Some (err, fs1, tr1) →
  err = None.
Proof.
  intros Hdata Hstat. unfold KedgeGo.Apply. rewrite Hdata, Hstat.
  destruct (KedgeGo.render fuel engine os f inputFilename data fs) as [[[b|e] fs2]|];
    [|by intros [= <- _ _]|done].
  destruct (KedgeGo.createOrUpdateResource fuel codec b namespace config tr); [|done].
  by intros [= <- _ _].
Qed.

Lemma KedgeGo_Apply_nil_after_stat_witness :
  ∃ fs1 tr1,
    KedgeGo.Apply 2 Scenario.codec Scenario.engine Scenario.os Scenario.config
      "nested.yaml" "default" [] Scenario.files [] = Some (None, fs1, tr1) ∧
    tr1 = [EvLog "ERROR: could not unmarshal resource: yaml: did not find expected node content"].
Proof.
  assert (∃ err fs1 tr1,
            KedgeGo.Apply 2 Scenario.codec Scenario.engine Scenario.os Scenario.config
              "nested.yaml" "default" [] Scenario.files [] = Some (err, fs1, tr1) ∧
            tr1 = [EvLog "ERROR: could not unmarshal resource: yaml: did not find expected node content"])
    as (err & fs1 & tr1 & Hrun & Htr) by (eexists _, _, _; split; by vm_compute).
  exists fs1, tr1. split; [|exact Htr].
  rewrite Hrun. f_equal. f_equal. f_equal.
  exact (KedgeGo_Apply_nil_after_stat 2 Scenario.codec Scenario.engine Scenario.os
           Scenario.config "nested.yaml" "default" [] Scenario.files [] _ _ err fs1 tr1
           eq_refl eq_refl Hrun).
Defined.

(** ** More on the merge of values *)

(** The binding of a key after a merge, case by case: a key that [d2] lacks
    is as in [d1]; a mapping merges into a mapping and replaces anything
    else; a sequence is appended to a sequence when [recurseArrays] is set,
    the items of [d1] first, and replaces the old value otherwise; any other
    value replaces the old one. *)
Theorem mergeMaps_binding (d1 d2 : gmap string value) (recurseArrays : bool) (k : string) :
  mergeMaps d1 d2 recurseArrays !! k =
    match d2 !! k with
    | None => d1 !! k
    | Some (VMap m) =>
        match d1 !! k with
        | Some (VMap n) => Some (VMap (mergeMaps n m recurseArrays))
        | _ => Some (VMap m)
        end
    | Some (VList l) =>
        match d1 !! k with
        | Some (VList n) => Some (VList (if recurseArrays then n ++ l else l))
        | _ => Some (VList l)
        end
    | Some v => Some v
    end.
Proof.
  rewrite mergeMaps_lookup.
  destruct (d2 !! k) as [[| | | |l|m]|]; try done; simpl.
  - destruct (d1 !! k) as [[| | | |n|]|]; try done. by destruct recurseArrays.
  - by destruct (d1 !! k) as [[| | | | |n]|].
Qed.

(** Merging with an empty mapping, on either side, gives the other mapping. *)
Theorem mergeMaps_empty (d : gmap string value) (recurseArrays : bool) :
  mergeMaps d ∅ recurseArrays = d ∧ mergeMaps ∅ d recurseArrays = d.
Proof.
  split; apply map_eq; intros k; rewrite mergeMaps_lookup.
  - by rewrite lookup_empty.
  - rewrite lookup_empty. destruct (d !! k) as [v|]; [|done]. by destruct v.
Qed.

(** The order in which [range] visits the keys of [d2] does not matter: the
    body of the loop for one key can run after all the others, or before
    them, and the merge is the same. *)
Theorem mergeMaps_any_order (d1 d2 : gmap string value) (recurseArrays : bool) k v :
  d2 !! k = None →
  mergeMaps d1 (<[k := v]> d2) recurseArrays =
    mergeStep (mergeInto recurseArrays) recurseArrays k v (mergeMaps d1 d2 recurseArrays) ∧
  mergeMaps d1 (<[k := v]> d2) recurseArrays =
    mergeMaps (mergeStep (mergeInto recurseArrays) recurseArrays k v d1) d2 recurseArrays.
Proof.
  intros Hk. split; apply map_eq; intros j; rewrite !mergeStep_insert.
  - rewrite (mergeMaps_lookup d1 (<[k := v]> d2)).
    destruct (decide (k = j)) as [<-|Hne].
    + by rewrite !lookup_insert_eq, (mergeMaps_lookup d1 d2), Hk.
    + by rewrite !lookup_insert_ne, (mergeMaps_lookup d1 d2).
  - rewrite (mergeMaps_lookup d1 (<[k := v]> d2)), (mergeMaps_lookup _ d2).
    destruct (decide (k = j)) as [<-|Hne].
    + by rewrite Hk, !lookup_insert_eq.
    + by rewrite !lookup_insert_ne.
Qed.

Lemma mergeMaps_any_order_witness :
  mergeMaps Scenario.valuesBase (<["replicas" := VNumber 3]> Scenario.valuesProd) false =
    mergeMaps (mergeStep (mergeInto false) false "replicas" (VNumber 3) Scenario.valuesBase)
      Scenario.valuesProd false.
Proof.
  apply (mergeMaps_any_order Scenario.valuesBase Scenario.valuesProd false "replicas"
           (VNumber 3)).
  by vm_compute.
Defined.

(** ** Value files that cannot be used *)

(** [combineValues] stops at the first file that cannot be read or decoded:
    it returns what the files before it merged into, with the error of that
    file, which names the path when the file cannot be read and says nothing
    of the cause when it cannot be decoded; the files after it play no part. *)
Theorem combineValues_stops_at_bad_file codec (fs : FS) recurseArrays before ds bad after err :
  Forall2 (λ file d, readValues codec fs file = Ok d) before ds →
  readValues codec fs bad = Err err →
  combineValues codec fs (before ++ bad :: after) recurseArrays =
    (foldl (λ data d, mergeMaps data d recurseArrays) ∅ ds, Some err) ∧
  err = match fs !! bad with
        | None => "unable to  read values file: " +:+ bad
        | Some _ => "unable decode the values content"
        end.
Proof.
  intros Hread Hbad. split.
  - unfold combineValues. generalize (∅ : gmap string value) as acc.
    induction Hread as [|file d before ds Hfile _ IH]; intros acc; simpl.
    + by rewrite Hbad.
    + rewrite Hfile. apply IH.
  - unfold readValues in Hbad. destruct (fs !! bad) as [content|]; [|by simplify_eq].
    destruct (yamlUnmarshalMap codec content); by simplify_eq.
Qed.

Lemma combineValues_stops_at_bad_file_witness :
  combineValues Scenario.codec Scenario.files ["base.yaml"; "missing.yaml"; "prod.yaml"] false =
    (mergeMaps ∅ Scenario.valuesBase false, Some "unable to  read values file: missing.yaml") ∧
  snd (combineValues Scenario.codec Scenario.files ["base.yaml"; "broken.yaml"] false) =
    Some "unable decode the values content".
Proof.
  split.
  - destruct (combineValues_stops_at_bad_file Scenario.codec Scenario.files false
                ["base.yaml"] [Scenario.valuesBase] "missing.yaml" ["prod.yaml"]
                "unable to  read values file: missing.yaml") as [Hrun _];
      [by repeat constructor|reflexivity|exact Hrun].
  - destruct (combineValues_stops_at_bad_file Scenario.codec Scenario.files false
                ["base.yaml"] [Scenario.valuesBase] "broken.yaml" []
                "unable decode the values content") as [Hrun _];
      [by repeat constructor|reflexivity|].
    simpl app in Hrun. by rewrite Hrun.
Defined.

(** ** Group-version strings *)

Lemma splitOn_inv sep s :
  ∀ f fs, splitOn sep s = f :: fs →
    hasByte sep f = false ∧
    match fs with
    | [] => s = f
    | _ :: _ => ∃ rest, s = f +:+ String sep rest ∧ splitOn sep rest = fs
    end.
Proof.
  induction s as [|c s IH]; intros f fs; simpl.
  - by intros [= <- <-].
  - destruct (Ascii.eqb c sep) eqn:Hc.
    + apply Ascii.eqb_eq in Hc as ->. intros [= <- <-]. split; [done|].
      destruct (splitOn_cons sep s) as (f' & fs' & Hs). rewrite Hs.
      exists s. by rewrite Hs.
    + destruct (splitOn_cons sep s) as (f' & fs' & Hs). rewrite Hs.
      intros [= <- <-]. destruct (IH f' fs' Hs) as [Hf' Hrest]. split.
      * simpl. by rewrite Hc, Hf'.
      * destruct fs' as [|f'' fs'']; [by rewrite Hrest|].
        destruct Hrest as (rest & -> & Hsplit). by exists rest.
Qed.

Lemma splitOn_whole sep s : hasByte sep s = false → splitOn sep s = [s].
Proof.
  induction s as [|c s IH]; [done|].
  intros [Hc Hs]%hasByte_head. simpl.
  apply Ascii.eqb_neq in Hc. by rewrite Hc, (IH Hs).
Qed.

Lemma splitOn_field sep field rest :
  hasByte sep field = false →
  splitOn sep (field +:+ String sep rest) = field :: splitOn sep rest.
Proof.
  induction field as [|c field IH]; intros Hfield; simpl.
  - by rewrite Ascii.eqb_refl.
  - apply hasByte_head in Hfield as [Hc Hfield].
    apply Ascii.eqb_neq in Hc. rewrite Hc. by rewrite (IH Hfield).
Qed.

Lemma ParseGroupVersion_version v :
  v ≠ "" → hasByte slash v = false →
  ParseGroupVersion v = Ok {| gvGroup := ""; gvVersion := v |}.
Proof.
  intros Hne Hv. unfold ParseGroupVersion.
  rewrite (bool_decide_eq_false_2 (v = "")) by done.
  rewrite (bool_decide_eq_false_2 (v = "/")) by (intros ->; done).
  simpl. by rewrite (splitOn_whole slash v Hv).
Qed.

Lemma ParseGroupVersion_group g v :
  g ≠ "" → hasByte slash g = false → hasByte slash v = false →
  ParseGroupVersion (g +:+ "/" +:+ v) = Ok {| gvGroup := g; gvVersion := v |}.
Proof.
  intros Hne Hg Hv. unfold ParseGroupVersion.
  destruct g as [|c g]; [done|].
  pose proof (hasByte_head _ _ _ Hg) as [Hc _].
  rewrite (bool_decide_eq_false_2 (_ = "")) by done.
  rewrite (bool_decide_eq_false_2 (_ = "/")) by (intros [= -> _]; by apply Hc).
  simpl orb. cbv iota.
  change (String c g +:+ "/" +:+ v) with (String c g +:+ String slash v).
  by rewrite (splitOn_field slash _ _ Hg), (splitOn_whole slash v Hv).
Qed.

(** Parsing the string form of a parsed group-version gives it back. *)
Lemma ParseGroupVersion_String s gv :
  ParseGroupVersion s = Ok gv →
  ParseGroupVersion
    (if bool_decide (gvGroup gv = "") then gvVersion gv
     else gvGroup gv +:+ "/" +:+ gvVersion gv) = Ok gv.
Proof.
  unfold ParseGroupVersion at 1.
  destruct (bool_decide (s = "") || bool_decide (s = "/")) eqn:Hs; [by intros [= <-]|].
  apply orb_false_elim in Hs as [Hempty Hslash].
  apply bool_decide_eq_false in Hempty, Hslash.
  destruct (splitOn slash s) as [|f [|f' [|f'' fs]]] eqn:Hsplit; try done.
  - intros [= <-]. cbn [gvGroup gvVersion].
    rewrite (bool_decide_eq_true_2 ("" = "")) by done.
    apply splitOn_inv in Hsplit as [Hf ->].
    by apply ParseGroupVersion_version.
  - intros [= <-]. cbn [gvGroup gvVersion].
    apply splitOn_inv in Hsplit as [Hf (rest & -> & Hrest)].
    apply splitOn_inv in Hrest as [Hf' ->].
    case_bool_decide as Hgroup.
    + subst f. apply ParseGroupVersion_version; [|done].
      intros ->. by apply Hslash.
    + by apply ParseGroupVersion_group.
Qed.

Lemma gvk_round_trip obj :
  FromAPIVersionAndKind (GroupVersionString (GroupVersionKindOf obj))
    (gvkKind (GroupVersionKindOf obj)) = GroupVersionKindOf obj.
Proof.
  unfold FromAPIVersionAndKind, GroupVersionKindOf, GroupVersionString.
  destruct (ParseGroupVersion (GetAPIVersion obj)) as [gv|] eqn:Hparse; simpl; [|done].
  by rewrite (ParseGroupVersion_String _ _ Hparse).
Qed.

(** The resolver is asked about the document's own kind: the group-version
    that the reconcilers pass as a string is parsed back by
    [getDynamicClientOnKind] into the triple of the document, and an
    apiVersion with more than one ["/"] gives the empty triple, kind
    included. *)
Theorem resolver_looks_up_the_document_kind obj :
  FromAPIVersionAndKind (GroupVersionString (GroupVersionKindOf obj))
    (gvkKind (GroupVersionKindOf obj)) = GroupVersionKindOf obj ∧
  (isOk (ParseGroupVersion (GetAPIVersion obj)) = false →
   GroupVersionKindOf obj = {| gvkGroup := ""; gvkVersion := ""; gvkKind := "" |}).
Proof.
  split; [apply gvk_round_trip|].
  unfold GroupVersionKindOf. by destruct (ParseGroupVersion (GetAPIVersion obj)).
Qed.

(** ** The client of a resource *)

(** Resolving a kind logs and asks the catalog; it creates and patches
    nothing. *)
Lemma getDynamicClientOnKind_trace apiversion kind config tr :
  ∃ events,
    snd (getDynamicClientOnKind apiversion kind config tr) = tr ++ events ∧
    Forall (λ ev, isRequest ev = false) events.
Proof.
  unfold getDynamicClientOnKind, getAPIResourceForGVK.
  destruct (newDiscoveryClient config); simpl.
  - eexists. rewrite <- app_assoc. split; [reflexivity|]. by repeat constructor.
  - destruct (serverResourcesForGroupVersion config tr _); simpl.
    + destruct (newDynamicClient config); simpl.
      * eexists. rewrite <- app_assoc. split; [reflexivity|]. by repeat constructor.
      * eexists. split; [reflexivity|]. by repeat constructor.
    + eexists. rewrite <- !app_assoc. split; [reflexivity|]. by repeat constructor.
Qed.

(** When no client can be had for the kind of a document (the discovery
    client or the dynamic client cannot be built, or the catalog of the
    group-version is not served), neither copy sends a create or a patch:
    kedge.go logs the failure, part_000 returns it. *)
Theorem no_client_no_request codec config b namespace obj tr err tr1 :
  getDynamicClientOnKind (GroupVersionString (GroupVersionKindOf obj))
    (gvkKind (GroupVersionKindOf obj)) config tr = (Err err, tr1) →
  (∃ events, tr1 = tr ++ events ∧ Forall (λ ev, isRequest ev = false) events) ∧
  KedgeGo.createOrUpdateOne config b namespace obj tr =
    tr1 ++ [EvLog ("ERROR: could not get a client to handle resource: " +:+ err)] ∧
  (gvkKind (GroupVersionKindOf obj) ≠ "List" →
   Part000.createOrUpdateOne codec config namespace obj tr =
     (Some ("ERROR: could not get a client to handle resource: " +:+ err), tr1)).
Proof.
  intros Hclient. split; [|split].
  - destruct (getDynamicClientOnKind_trace (GroupVersionString (GroupVersionKindOf obj))
                (gvkKind (GroupVersionKindOf obj)) config tr) as (events & Htr & Hevents).
    rewrite Hclient in Htr. simpl in Htr. by exists events.
  - unfold KedgeGo.createOrUpdateOne. by rewrite Hclient.
  - intros Hkind. unfold Part000.createOrUpdateOne.
    rewrite bool_decide_eq_false_2 by done. by rewrite Hclient.
Qed.

Lemma no_client_no_request_witness :
  ∃ err tr1,
    KedgeGo.createOrUpdateOne Cases.unreachable "first.json" "default" Scenario.first [] =
      tr1 ++ [EvLog ("ERROR: could not get a client to handle resource: " +:+ err)] ∧
    Forall (λ ev, isRequest ev = false) tr1.
Proof.
  assert (∃ err tr1,
            getDynamicClientOnKind (GroupVersionString (GroupVersionKindOf Scenario.first))
              (gvkKind (GroupVersionKindOf Scenario.first)) Cases.unreachable [] = (Err err, tr1))
    as (err & tr1 & Hclient) by (eexists _, _; by vm_compute).
  destruct (no_client_no_request Scenario.codec Cases.unreachable "first.json" "default"
              Scenario.first [] err tr1 Hclient) as ((events & Htr1 & Hnone) & HK & _).
  exists err, tr1. split; [exact HK|]. by rewrite Htr1.
Defined.

(** ** The reconciler of kedge.go, one resource *)

Lemma KedgeGo_createOrUpdateOne_shape config b namespace obj tr client isNamespaced tr1 :
  getDynamicClientOnKind (GroupVersionString (GroupVersionKindOf obj))
    (gvkKind (GroupVersionKindOf obj)) config tr = (Ok (client, isNamespaced), tr1) →
  let scope := if isNamespaced then Some namespace else None in
  let sent := SetOwnerReferences [] (SetUID "" (SetResourceVersion ""
                (SetNamespace namespace obj))) in
  ∃ rest,
    KedgeGo.createOrUpdateOne config b namespace obj tr =
      tr1 ++ EvCreate client scope sent :: rest ∧
    Forall (sameClient client scope) rest.
Proof.
  intros Hclient. unfold KedgeGo.createOrUpdateOne. rewrite Hclient. cbv zeta.
  destruct (createResponse _ _ _ _ _); [|destruct (patchResponse _ _ _ _ _ _)|].
  all: eexists; (split; [rewrite <- ?app_assoc; reflexivity|]).
  all: repeat constructor.
Qed.

(** What kedge.go sends to the create call: the document with the namespace
    of the caller written into it (even for a resource that is not
    namespace-scoped), the resource version and the UID removed and the owner
    references emptied; the self-link and every other field are those of the
    document. *)
Theorem KedgeGo_sends_document_in_caller_namespace config b namespace obj tr client
    isNamespaced tr1 :
  getDynamicClientOnKind (GroupVersionString (GroupVersionKindOf obj))
    (gvkKind (GroupVersionKindOf obj)) config tr = (Ok (client, isNamespaced), tr1) →
  metadataOk obj = true →
  ∃ sent rest,
    KedgeGo.createOrUpdateOne config b namespace obj tr =
      tr1 ++ EvCreate client (if isNamespaced then Some namespace else None) sent :: rest ∧
    Forall (sameClient client (if isNamespaced then Some namespace else None)) rest ∧
    GetNamespace sent = namespace ∧
    GetResourceVersion sent = "" ∧ GetUID sent = "" ∧ GetOwnerReferences sent = [] ∧
    (∀ k, k ≠ "metadata" → sent !! k = obj !! k) ∧
    (∀ f, f ∉ ["namespace"; "resourceVersion"; "uid"; "ownerReferences"] →
          nestedField sent "metadata" f = nestedField obj "metadata" f).
Proof.
  intros Hclient Hok.
  pose proof (KedgeGo_createOrUpdateOne_shape config b namespace obj tr client isNamespaced
                tr1 Hclient) as Hshape.
  cbv zeta in Hshape. destruct Hshape as (rest & Hrun & Hrest).
  eexists _, rest. split; [exact Hrun|]. split; [exact Hrest|].
  split.
  { unfold SetOwnerReferences, SetUID, SetResourceVersion.
    unfold GetNamespace.
    rewrite nestedField_setNestedField_ne, !nestedField_setNestedString_ne by done.
    by apply GetNamespace_SetNamespace. }
  split; [apply (strip_cleared (SetNamespace namespace))|].
  split; [apply (strip_cleared (SetNamespace namespace))|].
  split; [apply (strip_cleared (SetNamespace namespace))|].
  unfold SetOwnerReferences, SetUID, SetResourceVersion, SetNamespace.
  apply strip_frame.
Qed.

Lemma KedgeGo_sends_document_in_caller_namespace_witness :
  ∃ sent rest,
    KedgeGo.createOrUpdateOne Scenario.config "settings.yaml" "default" Scenario.settings [] =
      [EvDiscovery "v1"] ++
      EvCreate {| gvrGroup := ""; gvrVersion := "v1"; gvrResource := "configmaps" |}
        (Some "default") sent :: rest ∧
    GetNamespace sent = "default" ∧
    GetSelfLink sent = GetSelfLink Scenario.settings.
Proof.
  destruct (KedgeGo_sends_document_in_caller_namespace Scenario.config "settings.yaml"
              "default" Scenario.settings []
              {| gvrGroup := ""; gvrVersion := "v1"; gvrResource := "configmaps" |}
              true [EvDiscovery "v1"])
    as (sent & rest & Hrun & _ & Hns & _ & _ & _ & _ & Hmeta); [reflexivity|reflexivity|].
  exists sent, rest. split; [exact Hrun|]. split; [exact Hns|].
  unfold GetSelfLink. rewrite Hmeta; [done|not_among].
Defined.

(** ** A kind that the catalog does not list *)

Lemma getDynamicClientOnKind_miss obj config tr resources :
  newDiscoveryClient config = None →
  serverResourcesForGroupVersion config tr (GroupVersionString (GroupVersionKindOf obj)) =
    Ok resources →
  Forall (λ entry, ¬ (resKind entry = gvkKind (GroupVersionKindOf obj) ∧
                      contains (resName entry) "/" = false)) resources →
  newDynamicClient config = None →
  getDynamicClientOnKind (GroupVersionString (GroupVersionKindOf obj))
    (gvkKind (GroupVersionKindOf obj)) config tr =
    (Ok ({| gvrGroup := ""; gvrVersion := ""; gvrResource := "" |}, false),
     tr ++ [EvDiscovery (GroupVersionString (GroupVersionKindOf obj))]).
Proof.
  intros Hdiscovery Hlist Hnone Hdynamic.
  unfold getDynamicClientOnKind, getAPIResourceForGVK.
  rewrite gvk_round_trip, Hdiscovery, Hlist, Hdynamic.
  destruct (findAPIResource_spec (GroupVersionKindOf obj) resources)
    as [[_ ->]|(before & entry & after & -> & _ & Hentry & _)]; [done|].
  apply Forall_app in Hnone as [_ Hnone]. by inversion Hnone.
Qed.

(** A kind that the catalog of its group-version does not list is no error
    for either copy: the resolver returns the zero resource, cluster-scoped,
    and the create call is sent to it all the same. *)
Theorem unknown_kind_is_sent_to_the_zero_resource codec config b namespace obj tr resources :
  newDiscoveryClient config = None →
  serverResourcesForGroupVersion config tr (GroupVersionString (GroupVersionKindOf obj)) =
    Ok resources →
  Forall (λ entry, ¬ (resKind entry = gvkKind (GroupVersionKindOf obj) ∧
                      contains (resName entry) "/" = false)) resources →
  newDynamicClient config = None →
  (∃ sent rest,
     KedgeGo.createOrUpdateOne config b namespace obj tr =
       tr ++ EvDiscovery (GroupVersionString (GroupVersionKindOf obj)) ::
             EvCreate {| gvrGroup := ""; gvrVersion := ""; gvrResource := "" |} None sent ::
             rest) ∧
  (gvkKind (GroupVersionKindOf obj) ≠ "List" →
   ∃ err sent rest,
     Part000.createOrUpdateOne codec config namespace obj tr =
       (err, tr ++ EvDiscovery (GroupVersionString (GroupVersionKindOf obj)) ::
                   EvCreate {| gvrGroup := ""; gvrVersion := ""; gvrResource := "" |} None sent ::
                   rest)).
Proof.
  intros Hdiscovery Hlist Hnone Hdynamic.
  pose proof (getDynamicClientOnKind_miss obj config tr resources
                Hdiscovery Hlist Hnone Hdynamic) as Hclient.
  split.
  - pose proof (KedgeGo_createOrUpdateOne_shape config b namespace obj tr _ _ _ Hclient)
      as Hshape.
    cbv zeta in Hshape. destruct Hshape as (rest & Hrun & _).
    eexists _, rest. rewrite Hrun. by rewrite <- app_assoc.
  - intros Hkind.
    pose proof (Part000_createOrUpdateOne_shape codec config namespace obj tr _ _ _
                  Hkind Hclient) as Hshape.
    cbv zeta in Hshape. destruct Hshape as (err & rest & Hrun & _).
    eexists err, _, rest. rewrite Hrun. by rewrite <- app_assoc.
Qed.

Lemma unknown_kind_is_sent_to_the_zero_resource_witness :
  ∃ sent rest,
    KedgeGo.createOrUpdateOne Scenario.config "widget.yaml" "default" Cases.widget [] =
      [] ++ EvDiscovery "v1" ::
            EvCreate {| gvrGroup := ""; gvrVersion := ""; gvrResource := "" |} None sent :: rest.
Proof.
  destruct (unknown_kind_is_sent_to_the_zero_resource Scenario.codec Scenario.config
              "widget.yaml" "default" Cases.widget [] Scenario.coreResources)
    as [(sent & rest & Hrun) _]; [reflexivity|reflexivity| |reflexivity|].
  - repeat constructor; intros [Hkind _]; discriminate Hkind.
  - by exists sent, rest.
Defined.

(** ** The patch after a conflict *)

Lemma GetName_strip (s1 s2 s3 f1 f2 f3 f4 : string) (refs : list value) obj :
  "name" ∉ [f1; f2; f3; f4] →
  GetName (setNestedField (VList refs) "metadata" f4
             (setNestedString s3 "metadata" f3
                (setNestedString s2 "metadata" f2
                   (setNestedString s1 "metadata" f1 obj)))) = GetName obj.
Proof.
  intros Hf. unfold GetName.
  by rewrite (proj2 (strip_frame s1 s2 s3 f1 f2 f3 f4 refs obj) "name" Hf).
Qed.

(** In kedge.go, when the create call answers that the object exists, the
    patch goes to the same resource and namespace under the name of the
    document, and its body is the text that was decoded, as it is: the
    fields cleared on the object are not cleared in the patch. *)
Theorem KedgeGo_patches_with_the_input_text config b namespace obj tr client isNamespaced
    tr1 conflict :
  getDynamicClientOnKind (GroupVersionString (GroupVersionKindOf obj))
    (gvkKind (GroupVersionKindOf obj)) config tr = (Ok (client, isNamespaced), tr1) →
  createResponse config tr1 client (if isNamespaced then Some namespace else None)
    (SetOwnerReferences [] (SetUID "" (SetResourceVersion "" (SetNamespace namespace obj)))) =
    AlreadyExists conflict →
  ∃ sent line outcome,
    KedgeGo.createOrUpdateOne config b namespace obj tr =
      tr1 ++ [ EvCreate client (if isNamespaced then Some namespace else None) sent;
               EvLog line;
               EvPatch client (if isNamespaced then Some namespace else None) (GetName obj) b;
               EvLog outcome ].
Proof.
  intros Hclient Hconflict. unfold KedgeGo.createOrUpdateOne.
  rewrite Hclient. cbv zeta. rewrite Hconflict.
  assert (GetName (SetOwnerReferences [] (SetUID "" (SetResourceVersion ""
                     (SetNamespace namespace obj)))) = GetName obj) as ->
    by (apply GetName_strip; not_among).
  destruct (patchResponse _ _ _ _ _ _); eexists _, _, _; by rewrite <- !app_assoc.
Qed.

Lemma KedgeGo_patches_with_the_input_text_witness :
  ∃ sent line outcome,
    KedgeGo.createOrUpdateOne Scenario.config "settings.yaml" "default" Scenario.settings [] =
      [EvDiscovery "v1"] ++
      [ EvCreate {| gvrGroup := ""; gvrVersion := "v1"; gvrResource := "configmaps" |}
          (Some "default") sent;
        EvLog line;
        EvPatch {| gvrGroup := ""; gvrVersion := "v1"; gvrResource := "configmaps" |}
          (Some "default") (GetName Scenario.settings) "settings.yaml";
        EvLog outcome ].
Proof.
  exact (KedgeGo_patches_with_the_input_text Scenario.config "settings.yaml" "default"
           Scenario.settings []
           {| gvrGroup := ""; gvrVersion := "v1"; gvrResource := "configmaps" |}
           true [EvDiscovery "v1"] "configmaps settings already exists" eq_refl eq_refl).
Defined.

(** In part_000, when the create call answers that the object exists and the
    type catalog knows a kind for the object, the patch goes to the same
    resource and namespace under the name of the document, its body is the
    encoding of the object that was sent to the create call, stamped with
    the first of its kinds, and the result is [nil] exactly when the patch
    succeeds. *)
Theorem Part000_patches_with_the_encoded_object codec config namespace obj tr client
    isNamespaced tr1 conflict gvk more :
  let own := isNamespaced && bool_decide (GetNamespace obj ≠ "") in
  let target := if own then GetNamespace obj else namespace in
  let prepared :=
    if isNamespaced && negb (bool_decide (GetNamespace obj ≠ ""))
    then SetNamespace namespace obj else obj in
  let scope := if isNamespaced then Some target else None in
  let sent := SetOwnerReferences [] (SetUID "" (SetResourceVersion "" (SetSelfLink "" prepared))) in
  let body := encode codec (SetGroupVersionKind gvk sent) in
  gvkKind (GroupVersionKindOf obj) ≠ "List" →
  getDynamicClientOnKind (GroupVersionString (GroupVersionKindOf obj))
    (gvkKind (GroupVersionKindOf obj)) config tr = (Ok (client, isNamespaced), tr1) →
  createResponse config tr1 client scope sent = AlreadyExists conflict →
  objectKinds codec sent = Ok (gvk :: more) →
  ∃ err line rest,
    Part000.createOrUpdateOne codec config namespace obj tr =
      (err, tr1 ++ [EvCreate client scope sent; EvLog line;
                    EvPatch client scope (GetName obj) body] ++ rest) ∧
    (err = None ↔
     patchResponse config (tr1 ++ [EvCreate client scope sent; EvLog line]) client scope
       (GetName obj) body = None).
Proof.
  intros own target prepared scope sent body Hkind Hclient Hconflict Hkinds.
  assert (GetName (SetGroupVersionKind gvk sent) = GetName obj) as Hname.
  { unfold GetName, nestedField, SetGroupVersionKind.
    rewrite !lookup_insert_ne by done.
    change (stringOf (nestedField sent "metadata" "name") = GetName obj).
    unfold sent, SetOwnerReferences, SetUID, SetResourceVersion, SetSelfLink.
    rewrite (proj2 (strip_frame _ _ _ _ _ _ _ _ _) "name") by not_among.
    unfold prepared. destruct (_ && negb _); [|done].
    unfold SetNamespace. by rewrite nestedField_setNestedString_ne. }
  unfold Part000.createOrUpdateOne.
  rewrite bool_decide_eq_false_2 by done. rewrite Hclient.
  subst body sent scope prepared target own.
  destruct isNamespaced; [destruct (bool_decide (GetNamespace obj ≠ ""))|];
    cbv beta iota zeta delta [andb negb] in *.
  all: rewrite Hconflict; unfold Part000.makeNewPatchableData; rewrite Hkinds.
  all: cbv beta iota zeta; rewrite Hname.
  all: destruct (patchResponse _ _ _ _ _ _) eqn:Hpatch;
    eexists _, _, _; (split; [rewrite <- ?app_assoc; reflexivity|]);
    rewrite <- ?app_assoc in *; cbn [app] in *; rewrite Hpatch; done.
Qed.

Lemma Part000_patches_with_the_encoded_object_witness :
  ∃ err line rest,
    Part000.createOrUpdateOne Scenario.codec Scenario.config "default" Scenario.settings [] =
      (err, [EvDiscovery "v1"] ++
            [ EvCreate {| gvrGroup := ""; gvrVersion := "v1"; gvrResource := "configmaps" |}
                (Some "team-b")
                (SetOwnerReferences [] (SetUID "" (SetResourceVersion ""
                   (SetSelfLink "" Scenario.settings))));
              EvLog line;
              EvPatch {| gvrGroup := ""; gvrVersion := "v1"; gvrResource := "configmaps" |}
                (Some "team-b") (GetName Scenario.settings) "settings.patch" ] ++ rest).
Proof.
  destruct (Part000_patches_with_the_encoded_object Scenario.codec Scenario.config "default"
              Scenario.settings []
              {| gvrGroup := ""; gvrVersion := "v1"; gvrResource := "configmaps" |}
              true [EvDiscovery "v1"] "configmaps settings already exists"
              {| gvkGroup := ""; gvkVersion := "v1"; gvkKind := "ConfigMap" |} [])
    as (err & line & rest & Hrun & _); [by vm_compute..|].
  exists err, line, rest. exact Hrun.
Defined.

(** ** [makeNewPatchableData] *)

(** [makeNewPatchableData] fails when the type catalog fails or knows no
    kind for the object; otherwise it returns the encoding of the object on
    which the apiVersion and the kind of the first kind are written, every
    other field, the name among them, being left as it was. *)
Theorem makeNewPatchableData_result codec (obj : gmap string value) :
  match objectKinds codec obj with
  | Err err => Part000.makeNewPatchableData codec obj = Err err
  | Ok [] => Part000.makeNewPatchableData codec obj = Err "No gvks identified"
  | Ok (gvk :: _) =>
      ∃ stamped,
        Part000.makeNewPatchableData codec obj = Ok (encode codec stamped, stamped) ∧
        GetKind stamped = gvkKind gvk ∧
        GetAPIVersion stamped = GroupVersionString gvk ∧
        GetName stamped = GetName obj ∧
        (∀ k, k ≠ "apiVersion" → k ≠ "kind" → stamped !! k = obj !! k)
  end.
Proof.
  unfold Part000.makeNewPatchableData.
  destruct (objectKinds codec obj) as [[|gvk more]|]; try done.
  eexists. split; [reflexivity|]. unfold SetGroupVersionKind.
  split; [unfold GetKind; by rewrite lookup_insert_eq|].
  split; [unfold GetAPIVersion; by rewrite lookup_insert_ne, lookup_insert_eq|].
  split; [unfold GetName, nestedField; by rewrite !lookup_insert_ne|].
  intros k Hversion Hkind. by rewrite !lookup_insert_ne.
Qed.

(** ** An item that is not a resource *)

Lemma eachItem_stray fn children stray after tr :
  (∀ m, stray ≠ VMap m) →
  eachItem fn ((VMap <$> children) ++ stray :: after) tr =
    match eachItem fn (VMap <$> children) tr with
    | Some (None, tr1) => Some (Some "items member is not an object", tr1)
    | other => other
    end.
Proof.
  intros Hstray. revert tr. induction children as [|child children IH]; intros tr; simpl.
  - destruct stray; try done. by destruct (Hstray m).
  - destruct (fn child tr) as [[[err|] tr1]|]; [done|apply IH|done].
Qed.

(** An item of a list that is not a mapping ends the loop in both copies:
    the items before it are reconciled as usual and the items after it are
    never looked at.  The copy in part_000 returns the error of the loop when
    no earlier item failed; the copy in kedge.go drops it without a line in
    the log. *)
Theorem stray_item_ends_the_list fuel codec b namespace config tr obj children texts
    stray after :
  yamlUnmarshalObject codec b = Ok obj →
  obj !! "items" = Some (VList ((VMap <$> children) ++ stray :: after)) →
  (∀ m, stray ≠ VMap m) →
  Forall2 (λ child text, jsonMarshal codec child = Ok text) children texts →
  KedgeGo.createOrUpdateResource (S fuel) codec b namespace config tr =
    runAll (λ text, KedgeGo.createOrUpdateResource fuel codec text namespace config) texts tr ∧
  Part000.createOrUpdateResource (S fuel) codec b namespace config tr =
    match runUntilError
            (λ text, Part000.createOrUpdateResource fuel codec text namespace config)
            texts tr with
    | Some (None, tr1) => Some (Some "items member is not an object", tr1)
    | other => other
    end.
Proof.
  intros Hdecode Hitems Hstray Hmarshal. split; simpl; rewrite Hdecode;
    unfold IsList, EachListItem; rewrite Hitems; rewrite (eachItem_stray _ _ _ _ _ Hstray).
  - rewrite <- (KedgeGo_eachItem_runAll codec namespace config fuel children texts tr Hmarshal).
    by destruct (eachItem _ _ _) as [[[err|] tr1]|].
  - rewrite (Part000_eachItem_runUntilError _ _ _ _ _ _ _ Hmarshal).
    by destruct (runUntilError _ _ _) as [[[err|] tr1]|].
Qed.

Lemma stray_item_ends_the_list_witness :
  ∃ trK trP,
    KedgeGo.createOrUpdateResource 2 Cases.codec "mixed.yaml" "default" Scenario.config [] =
      Some trK ∧
    Scenario.created trK = ["second"] ∧
    Part000.createOrUpdateResource 2 Cases.codec "mixed.yaml" "default" Scenario.config [] =
      Some (Some "items member is not an object", trP) ∧
    Scenario.created trP = ["second"].
Proof.
  destruct (stray_item_ends_the_list 1 Cases.codec "mixed.yaml" "default" Scenario.config []
              Cases.mixed [Scenario.second] ["second.json"] (VString "stray")
              [VMap Scenario.second])
    as [HK HP]; [reflexivity|reflexivity|done|by repeat constructor|].
  eexists _, _. rewrite HK, HP.
  split; [vm_compute; reflexivity|]. split; [reflexivity|].
  split; [vm_compute; reflexivity|reflexivity].
Defined.

(** ** Merging a mapping with itself *)

Lemma depth_lookup (m : gmap string value) k v :
  m !! k = Some v → (depth v < depth (VMap m))%nat.
Proof.
  simpl. intros Hk. apply Nat.lt_succ_r. revert k v Hk.
  apply (map_fold_weak_ind
           (λ (acc : nat) (m' : gmap string value),
              ∀ k v, m' !! k = Some v → (depth v ≤ acc)%nat)).
  - intros k v. by rewrite lookup_empty.
  - intros i x m' acc Hi IH k v Hk.
    destruct (decide (i = k)) as [->|Hne].
    + rewrite lookup_insert_eq in Hk. simplify_eq. lia.
    + rewrite lookup_insert_ne in Hk by done. specialize (IH k v Hk). lia.
Qed.

Lemma mergeMaps_self n :
  ∀ d : gmap string value, (depth (VMap d) ≤ n)%nat → mergeMaps d d false = d.
Proof.
  induction n as [|n IH]; intros d Hd; [simpl in Hd; lia|].
  apply map_eq. intros k. rewrite mergeMaps_lookup.
  destruct (d !! k) as [v|] eqn:Hk; [|done].
  destruct v as [| | | |l|m]; try done. simpl. f_equal. f_equal.
  apply IH. pose proof (depth_lookup d k (VMap m) Hk). lia.
Qed.

(** Giving the same values twice changes nothing when sequences are
    replaced, which is how [Apply] merges; when they are appended every
    sequence of the top level is doubled. *)
Theorem mergeMaps_twice (d : gmap string value) :
  mergeMaps d d false = d ∧
  ∀ k l, d !! k = Some (VList l) → mergeMaps d d true !! k = Some (VList (l ++ l)).
Proof.
  split; [by apply (mergeMaps_self (depth (VMap d)))|].
  intros k l Hk. by rewrite mergeMaps_lookup, Hk.
Qed.
